(** * tg_tools: a shallow embedding of [bin/tg_tools.py]

    The script is a thin command-line layer over a client library: it
    reads two secrets from the environment, builds a client handle, runs
    one of four commands and prints lines.  The embedding keeps that
    shape: Python values and string methods are functions, the commands
    are programs in a small state-and-exception monad whose state is the
    interactive input still to be read and the trace of observable
    events, and the client library is a record of responses. *)

From Stdlib Require Import ZArith List Ascii String Lia Bool.
From Stdlib Require Import Sorting.Sorted Sorting.Permutation.
From stdpp Require Import base option list sorting gmap strings pretty.

Local Open Scope string_scope.
Local Open Scope Z_scope.
Local Open Scope list_scope.

(** ** Python values and string methods *)

Module Py.

(** An attribute that holds a string or [None] is an [option string].
    Truth value of such an object, as [not] and [or] test it. *)
Definition truthy (v : option string) : bool :=
  match v with
  | None => false
  | Some s => negb (String.eqb s "")
  end.

(** [a or b]: [a] when it is true, else [b], whatever [b] is. *)
Definition or (a b : option string) : option string :=
  if truthy a then a else b.

(** [a or b] where [b] is a string: the result is a string. *)
Definition or_else (a : option string) (b : string) : string :=
  match a with
  | Some s => if truthy a then s else b
  | None => b
  end.

(** [str(v)], which is also how an f-string field renders [v]. *)
Definition str (v : option string) : string := default "None" v.

(** [str(n)] for an integer, and for an integer or [None]. *)
Definition str_int (n : Z) : string := pretty n.

Definition str_opt_int (v : option Z) : string :=
  match v with
  | Some n => str_int n
  | None => "None"
  end.

(** An object is its attribute dictionary; an attribute that is missing
    or [None] has no entry.  [getattr(o, name, None)]. *)
Definition getattr (o : gmap string string) (name : string) : option string :=
  o !! name.

Definition nl : ascii := "010"%char.
Definition tab : ascii := "009"%char.
Definition space : ascii := " "%char.

(** [needle in hay] on strings: some suffix of [hay] starts with
    [needle]. *)
Fixpoint contains (needle hay : string) : bool :=
  String.prefix needle hay ||
  match hay with
  | EmptyString => false
  | String _ rest => contains needle rest
  end.

(** [s.lower()] on ASCII letters; other characters are kept. *)
Definition lower_char (c : ascii) : ascii :=
  let n := N_of_ascii c in
  if ((65 <=? n) && (n <=? 90))%N then ascii_of_N (n + 32) else c.

Fixpoint lower (s : string) : string :=
  match s with
  | EmptyString => EmptyString
  | String c rest => String (lower_char c) (lower rest)
  end.

(** [s.replace(old, new)] for a non-empty [old]: occurrences are replaced
    from the left and do not overlap.  [skip] counts the characters of
    the occurrence just replaced that are still to be dropped. *)
Fixpoint replace_from (old new : string) (skip : nat) (s : string) : string :=
  match s with
  | EmptyString => EmptyString
  | String c rest =>
      match skip with
      | S k => replace_from old new k rest
      | O =>
          if String.prefix old s
          then new +:+ replace_from old new (Nat.pred (String.length old)) rest
          else String c (replace_from old new O rest)
      end
  end.

Definition replace (old new s : string) : string := replace_from old new O s.

(** Whitespace as [str.strip] and [int] see it, on ASCII. *)
Definition is_space (c : ascii) : bool :=
  let n := N_of_ascii c in
  ((9 <=? n) && (n <=? 13) || (28 <=? n) && (n <=? 32))%N.

Fixpoint lstrip (s : string) : string :=
  match s with
  | EmptyString => EmptyString
  | String c rest => if is_space c then lstrip rest else s
  end.

(** Dropping trailing whitespace: a character stays when it is not
    whitespace or something stays after it. *)
Fixpoint rstrip (s : string) : string :=
  match s with
  | EmptyString => EmptyString
  | String c rest =>
      match rstrip rest with
      | EmptyString => if is_space c then EmptyString else String c EmptyString
      | kept => String c kept
      end
  end.

Definition strip (s : string) : string := rstrip (lstrip s).

Definition is_digit (c : ascii) : bool :=
  let n := N_of_ascii c in ((48 <=? n) && (n <=? 57))%N.

Definition digit_value (c : ascii) : Z := Z.of_N (N_of_ascii c) - 48.

(** The digits of a decimal literal: at least one digit, and single
    underscores only between digits.  [after_digit] tells whether the
    previous character was a digit. *)
Fixpoint digits (acc : Z) (after_digit : bool) (s : string) : option Z :=
  match s with
  | EmptyString => if after_digit then Some acc else None
  | String c rest =>
      if is_digit c then digits (10 * acc + digit_value c) true rest
      else if Ascii.eqb c "_"%char && after_digit then digits acc false rest
      else None
  end.

(** Whitespace as [int] skips it around a literal: the blank, and the
    characters from the tab to the carriage return.  It is a smaller set
    than the one of [str.strip]: the separators 28 to 31 are not in it. *)
Definition is_blank (c : ascii) : bool :=
  let n := N_of_ascii c in
  ((9 <=? n) && (n <=? 13) || (n =? 32))%N.

Fixpoint skip_blanks (s : string) : string :=
  match s with
  | EmptyString => EmptyString
  | String c rest => if is_blank c then skip_blanks rest else s
  end.

Fixpoint drop_blanks_at_end (s : string) : string :=
  match s with
  | EmptyString => EmptyString
  | String c rest =>
      match drop_blanks_at_end rest with
      | EmptyString => if is_blank c then EmptyString else String c EmptyString
      | kept => String c kept
      end
  end.

(** The value of a decimal literal: blanks around it are skipped and one
    sign is allowed before the digits. *)
Definition literal (s : string) : option Z :=
  match drop_blanks_at_end (skip_blanks s) with
  | String "+" rest => digits 0 false rest
  | String "-" rest => Z.opp <$> digits 0 false rest
  | body => digits 0 false body
  end.

(** The number of digits of a string, and the most of them that [int]
    converts (the default of [sys.int_max_str_digits]). *)
Fixpoint digit_count (s : string) : N :=
  match s with
  | EmptyString => 0
  | String c rest => ((if is_digit c then 1 else 0) + digit_count rest)%N
  end.

Definition max_str_digits : N := 4300.

(** [int(s)] in base ten, for [s] made of ASCII characters; [None]
    stands for the [ValueError] that an invalid literal raises, and a
    literal of more than [max_str_digits] digits too. *)
Definition int (s : string) : option Z :=
  match literal s with
  | Some v => if (max_str_digits <? digit_count s)%N then None else Some v
  | None => None
  end.

(** All characters are ASCII. *)
Fixpoint is_ascii (s : string) : bool :=
  match s with
  | EmptyString => true
  | String c rest => (N_of_ascii c <? 128)%N && is_ascii rest
  end.

End Py.

(** ** The client library

    Everything behind [telethon] is outside the script.  A call either
    returns or raises; what it raises either derives from [Exception]
    (and an [except Exception] clause catches it) or only from
    [BaseException] (a cancellation, an interrupt), and [str(e)] is its
    text. *)

Record client_error := ClientErr {
  derives_Exception : bool;
  error_text : string
}.

Inductive response (A : Type) :=
| Ok (a : A)
| Fails (e : client_error).
Arguments Ok {A} a.
Arguments Fails {A} e.

(** Dates are the library's [datetime] objects.  The script only calls
    [isoformat()] on them; [timestamp] places a date on the time line,
    which is what ordering messages by date means. *)
Class DateTime := {
  datetime : Type;
  isoformat : datetime -> string;
  timestamp : datetime -> Z
}.

(** Entities (users, chats, channels) are read through [getattr] only. *)
Abbreviation object := (gmap string string).

Module User.
Record t := Build { id : Z; username : option string }.
End User.

Module Dialog.
Record t := Build { id : Z; entity : object }.
End Dialog.

Module Message.
Record t `{DateTime} := Build {
  message : option string;
  date : datetime;
  chat_id : option Z;
  get_chat : response object
}.
End Message.

(** The client handle, as the responses of the methods the script
    awaits.  [iter_messages] is an asynchronous iterator: it yields some
    messages and then either stops or raises. *)
Record TelegramClient `{DateTime} := {
  connect : response unit;
  is_user_authorized : response bool;
  send_code_request : string -> response unit;
  sign_in : string -> string -> response unit;
  sign_in_password : string -> response unit;
  get_me : response User.t;
  disconnect : response unit;
  aenter : response unit;
  aexit : response unit;
  get_dialogs : Z -> response (list Dialog.t);
  get_entity : string -> response object;
  get_messages : object -> Z -> response (list Message.t);
  iter_messages : string -> Z -> list Message.t * option client_error
}.

(** What the process finds when it starts: the environment once
    [load_dotenv(ENV_PATH)] has run, and the library's constructor
    [TelegramClient(session, api_id, api_hash)]. *)
Record world `{DateTime} := {
  environ : gmap string string;
  telethon : string -> Z -> string -> response TelegramClient
}.

(** ** Effects *)

Inductive exn :=
| SystemExit (msg : string)
| ValueError (literal : string)
| EOFError
| ClientError (e : client_error).

Inductive outcome (A : Type) :=
| Return (a : A)
| Raise (e : exn).
Arguments Return {A} a.
Arguments Raise {A} e.

(** The methods of the client that are awaited. *)
Inductive call :=
| Connect
| IsUserAuthorized
| SendCodeRequest (phone : string)
| SignIn (phone code : string)
| SignInPassword (password : string)
| GetMe
| Disconnect
| Enter
| Exit
| GetDialogs (limit : Z)
| GetEntity (chat : string)
| GetMessages (limit : Z)
| IterMessages (query : string) (limit : Z)
| GetChat.

(** What an observer of the process sees, in order. *)
Inductive event :=
| New (session : string) (api_id : Z) (api_hash : string)
| Await (c : call)
| Input (prompt : string)
| Print (line : string).

Record state := State {
  stdin : list string;
  trace : list event
}.

Definition M (A : Type) : Type := state -> outcome A * state.

#[export] Instance M_ret : MRet M := fun A a s => (Return a, s).

#[export] Instance M_bind : MBind M := fun A B f m s =>
  match m s with
  | (Return a, s') => f a s'
  | (Raise e, s') => (Raise e, s')
  end.

#[export] Instance M_fmap : FMap M := fun A B f m s =>
  match m s with
  | (Return a, s') => (Return (f a), s')
  | (Raise e, s') => (Raise e, s')
  end.

Definition raise {A} (e : exn) : M A := fun s => (Raise e, s).

Definition emit (ev : event) : M unit :=
  fun s => (Return tt, State (stdin s) (trace s ++ [ev])).

(** [await client.method(...)]. *)
Definition await {A} (c : call) (r : response A) : M A :=
  emit (Await c);;
  match r with
  | Ok a => mret a
  | Fails e => raise (ClientError e)
  end.

(** [try: x = await client.method(...); x = f(x)] followed by
    [except Exception as e: handler]: only what derives from [Exception]
    reaches the handler. *)
Definition try_await {A B} (c : call) (r : response A) (f : A -> B)
    (handler : client_error -> M B) : M B :=
  emit (Await c);;
  match r with
  | Ok a => mret (f a)
  | Fails e => if derives_Exception e then handler e else raise (ClientError e)
  end.

(** [input(prompt)]: one line of the interactive input, [EOFError] when
    there is none. *)
Definition read_line : M string := fun s =>
  match stdin s with
  | [] => (Raise EOFError, s)
  | line :: rest => (Return line, State rest (trace s))
  end.

Definition input (prompt : string) : M string :=
  emit (Input prompt);; read_line.

Definition print (line : string) : M unit := emit (Print line).

(** [for x in xs: body]. *)
Fixpoint for_each {A} (xs : list A) (body : A -> M unit) : M unit :=
  match xs with
  | [] => mret tt
  | x :: rest => body x;; for_each rest body
  end.

(** [async with client: body].  The exit runs however the body ends; it
    does not swallow what the body raised, and what it raises itself
    replaces it.  Entering and leaving are each one awaited call of the
    library that returns or raises: what the library does of its own
    while entering a session that is not authorized yet (it may then ask
    for a code itself) is no statement of the script and is not
    followed here; [aenter client = Ok tt] is the entering of a session
    that is authorized. *)
Definition finally {A} (body : M A) (last : M unit) : M A := fun s =>
  let '(r, s') := body s in
  match last s' with
  | (Return _, s'') => (r, s'')
  | (Raise e, s'') => (Raise e, s'')
  end.

Definition async_with `{DateTime} {A} (client : TelegramClient) (body : M A) : M A :=
  await Enter (aenter client);;
  finally body (await Exit (aexit client)).

(** ** The script *)

Definition BASE : string := "/opt/openclaw/secret".
Definition ENV_PATH : string := BASE +:+ "/tg.env".
Definition SESSION_PATH : string := BASE +:+ "/telethon".

(** The parsed command line: the sub-command and its flags. *)
Inductive args :=
| Login (phone : option string)
| Dialogs (limit : Z)
| Tail (chat : string) (limit : Z)
| Search (query : string) (limit : Z).

Section Script.
Context `{DateTime} (w : world).

Definition get_client : M TelegramClient :=
  let api_id := environ w !! "TG_API_ID" in
  let api_hash := environ w !! "TG_API_HASH" in
  match api_id, api_hash with
  | Some id, Some hash =>
      if negb (Py.truthy api_id) || negb (Py.truthy api_hash)
      then raise (SystemExit "Missing TG_API_ID/TG_API_HASH (check /opt/openclaw/secret/tg.env)")
      else
        match Py.int id with
        | None => raise (ValueError id)
        | Some n =>
            emit (New SESSION_PATH n hash);;
            match telethon w SESSION_PATH n hash with
            | Ok client => mret client
            | Fails e => raise (ClientError e)
            end
        end
  | _, _ => raise (SystemExit "Missing TG_API_ID/TG_API_HASH (check /opt/openclaw/secret/tg.env)")
  end.

Definition cmd_login (phone : option string) : M unit :=
  client ← get_client;
  await Connect (connect client);;
  authorized ← await IsUserAuthorized (is_user_authorized client);
  (if negb authorized then
     match phone with
     | Some number =>
         if negb (Py.truthy phone)
         then raise (SystemExit "First-time login requires --phone +<countrycode><number>")
         else
           await (SendCodeRequest number) (send_code_request client number);;
           code ← Py.strip <$> input "Enter the Telegram login code you received: ";
           try_await (SignIn number code) (sign_in client number code) (fun r => r)
             (fun e =>
                if Py.contains "password" (Py.lower (error_text e))
                then
                  pwd ← input "Enter your Telegram 2FA password: ";
                  await (SignInPassword pwd) (sign_in_password client pwd)
                else raise (ClientError e))
     | None => raise (SystemExit "First-time login requires --phone +<countrycode><number>")
     end
   else mret tt);;
  me ← await GetMe (get_me client);
  print ("Logged in as: " +:+ Py.str_int (User.id me) +:+ " @" +:+ Py.str (User.username me));;
  await Disconnect (disconnect client).

(** The label of a conversation in [cmd_dialogs]. *)
Definition dialogs_title (ent : object) : option string :=
  Py.or (Py.or (Py.getattr ent "title") (Py.getattr ent "username"))
        (Py.getattr ent "first_name").

Definition dialogs_line (d : Dialog.t) : string :=
  let ent := Dialog.entity d in
  let title := dialogs_title ent in
  Py.str_int (Dialog.id d) +:+ String Py.tab (Py.str title).

Definition cmd_dialogs (limit : Z) : M unit :=
  client ← get_client;
  async_with client (
    dialogs ← await (GetDialogs limit) (get_dialogs client limit);
    for_each dialogs (fun d => print (dialogs_line d))).

(** The text of a message, as [cmd_tail] and [cmd_search] print it. *)
Definition text_of (m : Message.t) : string :=
  Py.replace (String Py.nl "") " " (Py.or_else (Message.message m) "").

Definition tail_line (m : Message.t) : string :=
  let text := text_of m in
  "[" +:+ isoformat (Message.date m) +:+ "] " +:+ text.

Definition cmd_tail (chat : string) (limit : Z) : M unit :=
  client ← get_client;
  async_with client (
    entity ← await (GetEntity chat) (get_entity client chat);
    msgs ← await (GetMessages limit) (get_messages client entity limit);
    for_each (reverse msgs) (fun m => print (tail_line m))).

(** The label of the owning chat in [cmd_search], once it was looked up. *)
Definition search_chat (c : object) : option string :=
  Py.or (Py.or (Py.getattr c "title") (Py.getattr c "username"))
        (Py.getattr c "first_name").

Definition search_line (chat : option string) (m : Message.t) : string :=
  let text := text_of m in
  "[" +:+ isoformat (Message.date m) +:+ "] in " +:+ Py.str chat +:+ ": " +:+ text.

Definition cmd_search (query : string) (limit : Z) : M unit :=
  client ← get_client;
  async_with client (
    let it := iter_messages client query limit in
    emit (Await (IterMessages query limit));;
    for_each (fst it) (fun m =>
      chat ← try_await GetChat (Message.get_chat m) search_chat
               (fun _ => mret (Some (Py.str_opt_int (Message.chat_id m))));
      print (search_line chat m));;
    match snd it with
    | Some e => raise (ClientError e)
    | None => mret tt
    end).

Definition main (a : args) : M unit :=
  match a with
  | Login phone => cmd_login phone
  | Dialogs limit => cmd_dialogs limit
  | Tail chat limit => cmd_tail chat limit
  | Search query limit => cmd_search query limit
  end.

(** One run of the process: the interactive input is [lines]. *)
Definition run (a : args) (lines : list string) : outcome unit * state :=
  main a (State lines []).

End Script.

(** The lines printed, and whether the client was built or awaited. *)
Definition stdout (tr : list event) : list string :=
  omap (fun ev => match ev with Print line => Some line | _ => None end) tr.

Definition is_network (ev : event) : bool :=
  match ev with
  | Await _ => true
  | _ => false
  end.

Definition is_lookup (ev : event) : bool :=
  match ev with
  | Await GetChat => true
  | _ => false
  end.

Definition is_new (ev : event) : bool :=
  match ev with
  | New _ _ _ => true
  | _ => false
  end.

(** The exit status of the process, where the outcome decides it: 0 when
    the command returned, 1 for [SystemExit] with a message and for an
    uncaught exception that derives from [Exception].  What ends the
    process outside [Exception] does so in its own way (an interrupt,
    by its signal), which the outcome does not tell. *)
Definition exit_status {A} (r : outcome A) : option Z :=
  match r with
  | Return _ => Some 0
  | Raise (ClientError e) => if derives_Exception e then Some 1 else None
  | Raise _ => Some 1
  end.

(** ** The properties the commands are checked against *)

Section Properties.
Context `{DateTime}.

(** A secret is missing when the environment has no entry for it or an
    empty one. *)
Definition secret_missing (w : world) (key : string) : Prop :=
  environ w !! key = None \/ environ w !! key = Some "".

(** The two secrets are there, the identifier reads as the integer [n],
    and the library builds [client] from them. *)
Definition builds (w : world) (n : Z) (hash : string) (client : TelegramClient) : Prop :=
  exists id,
    environ w !! "TG_API_ID" = Some id /\ Py.int id = Some n /\
    environ w !! "TG_API_HASH" = Some hash /\ hash <> "" /\
    telethon w SESSION_PATH n hash = Ok client.

(** Order of messages by date. *)
Definition not_after (a b : Message.t) : Prop :=
  timestamp (Message.date a) <= timestamp (Message.date b).

Definition oldest_first (ms : list Message.t) : Prop := Sorted not_after ms.
Definition newest_first (ms : list Message.t) : Prop := Sorted (flip not_after) ms.

(** The lines [out] are those of the fetched messages, each once, in
    non-decreasing order of date. *)
Definition prints_oldest_first (fetched : list Message.t) (out : list string) : Prop :=
  exists ms, ms ≡ₚ fetched /\ oldest_first ms /\ out = tail_line <$> ms.

(** The first of the given fields that holds a non-empty string. *)
Fixpoint first_non_empty (fields : list (option string)) : option string :=
  match fields with
  | [] => None
  | Some s :: rest => if String.eqb s "" then first_non_empty rest else Some s
  | None :: rest => first_non_empty rest
  end.

(** Every newline of a body replaced by one space. *)
Fixpoint newlines_to_spaces (body : string) : string :=
  match body with
  | EmptyString => EmptyString
  | String c rest =>
      String (if Ascii.eqb c Py.nl then Py.space else c) (newlines_to_spaces rest)
  end.

(** The character occurs in the string. *)
Fixpoint occurs (c : ascii) (s : string) : bool :=
  match s with
  | EmptyString => false
  | String c' rest => Ascii.eqb c' c || occurs c rest
  end.

(** The capital of a small letter, read off the two alphabets. *)
Fixpoint capital_in (small capitals : string) (c : ascii) : option ascii :=
  match small, capitals with
  | String a small', String A capitals' =>
      if Ascii.eqb c a then Some A else capital_in small' capitals' c
  | _, _ => None
  end.

Definition capital (c : ascii) : option ascii :=
  capital_in "abcdefghijklmnopqrstuvwxyz" "ABCDEFGHIJKLMNOPQRSTUVWXYZ" c.

(** [c] is the small letter [small] or its capital. *)
Definition same_letter (small c : ascii) : Prop :=
  c = small \/ capital small = Some c.

(** [word] spells [pattern], letter by letter, in whatever case. *)
Fixpoint spells (pattern word : string) : Prop :=
  match pattern, word with
  | EmptyString, EmptyString => True
  | String p pattern', String c word' => same_letter p c /\ spells pattern' word'
  | _, _ => False
  end.

(** The text has "password" in it, whatever the case of its letters. *)
Definition mentions_password (text : string) : Prop :=
  exists before word after,
    text = before +:+ word +:+ after /\ spells "password" word.

(** *** Integer literals

    What [int] takes for an integer in base ten: digits, in groups that
    single underscores may separate, one sign before them at most, and
    blanks around the whole. *)
Definition blank (c : ascii) : Prop :=
  In c [" "; "009"; "010"; "011"; "012"; "013"]%char.

Definition digit (c : ascii) : Prop :=
  In c ["0"; "1"; "2"; "3"; "4"; "5"; "6"; "7"; "8"; "9"]%char.

Fixpoint blanks (s : string) : Prop :=
  match s with
  | EmptyString => True
  | String c rest => blank c /\ blanks rest
  end.

Inductive digit_groups : string -> Prop :=
| groups_digit d : digit d -> digit_groups (String d "")
| groups_next d rest : digit d -> digit_groups rest -> digit_groups (String d rest)
| groups_underscore d rest :
    digit d -> digit_groups rest -> digit_groups (String d (String "_" rest)).

Definition int_literal (s : string) : Prop :=
  exists before sign body after,
    s = before +:+ sign +:+ body +:+ after /\
    blanks before /\ blanks after /\
    (sign = "" \/ sign = "+" \/ sign = "-") /\
    digit_groups body.

(** The label [cmd_search] prints for a result whose lookup returned or
    was caught. *)
Definition search_label (m : Message.t) : option string :=
  match Message.get_chat m with
  | Ok c => search_chat c
  | Fails _ => Some (Py.str_opt_int (Message.chat_id m))
  end.

(** What one turn of the loop of [cmd_search] leaves in the trace when
    the lookup returned or was caught. *)
Definition search_turn (m : Message.t) : list event :=
  [Await GetChat; Print (search_line (search_label m) m)].

(** How a command that works inside [async with client] ends, from how
    its body ends. *)
Definition scoped_outcome (client : TelegramClient) (r : outcome unit) : outcome unit :=
  match aenter client with
  | Fails e => Raise (ClientError e)
  | Ok _ =>
      match aexit client with
      | Fails e => Raise (ClientError e)
      | Ok _ => r
      end
  end.

(** The lookup of the owning chat raises something that [except
    Exception] does not catch. *)
Definition lookup_escapes (m : Message.t) (e : client_error) : Prop :=
  Message.get_chat m = Fails e /\ derives_Exception e = false.

(** Some call that the command makes on the client raises [e], the
    lookups that [cmd_search] catches apart. *)
Definition uncaught (client : TelegramClient) (a : args) (e : client_error) : Prop :=
  aenter client = Fails e \/ aexit client = Fails e \/
  match a with
  | Login _ => False
  | Dialogs limit => get_dialogs client limit = Fails e
  | Tail chat limit =>
      get_entity client chat = Fails e \/
      exists entity, get_entity client chat = Ok entity /\
                     get_messages client entity limit = Fails e
  | Search query limit =>
      snd (iter_messages client query limit) = Some e \/
      exists m, m ∈ fst (iter_messages client query limit) /\ lookup_escapes m e
  end.

End Properties.

(** *** What a program does to the state

    [steps R m]: wherever [m] starts, the state it ends in is related by
    [R] to the state it started in.  The relations used are: the trace
    grew by events that all satisfy [P]; the interactive input was left
    as it was. *)
Definition steps (R : relation state) {A} (m : M A) : Prop :=
  forall s, R s (snd (m s)).

Definition grows_by (P : event -> Prop) : relation state :=
  fun s s' => exists tr, trace s' = trace s ++ tr /\ Forall P tr.

Definition keeps_input : relation state :=
  fun s s' => stdin s' = stdin s.

Definition quietly (P : event -> Prop) : relation state :=
  fun s s' => keeps_input s s' /\ grows_by P s s'.

(** The events of a command that only reads: the client is built, the
    session is entered and left, conversations and messages are fetched,
    lines are printed.  Nothing is asked of the user, no code is
    requested and nobody signs in. *)
Definition reads_only (ev : event) : Prop :=
  match ev with
  | New _ _ _ | Print _ => True
  | Input _ => False
  | Await c =>
      match c with
      | Enter | Exit | GetDialogs _ | GetEntity _ | GetMessages _
      | IterMessages _ _ | GetChat => True
      | _ => False
      end
  end.

Definition not_new (ev : event) : Prop := is_new ev = false.

(** What happens inside a session is neither entering nor leaving it. *)
Definition inside (ev : event) : Prop := ev <> Await Enter /\ ev <> Await Exit.

Definition connected (ev : event) : Prop := ev <> Await Disconnect.

(** The trace grew, without a disconnection, up to one line that is
    printed and followed by the disconnection. *)
Definition disconnects_last : relation state :=
  fun s s' =>
    exists before line,
      trace s' = trace s ++ before ++ [Print line; Await Disconnect] /\
      Forall connected before.

Definition stays_or_leaves {A} (m : M A) : Prop :=
  forall s, grows_by connected s (snd (m s)) \/ disconnects_last s (snd (m s)).

(** The commands that work inside [async with client]. *)
Definition scoped (a : args) : Prop :=
  match a with
  | Login _ => False
  | _ => True
  end.

(** ** A fake backing service

    The commands are run below against a stand-in for the library: dates
    are seconds since the epoch shown in UTC, and the client answers from
    fixed lists, handing out at most [limit] items. *)

Module Fake.

Definition pad (width : nat) (n : Z) : string :=
  let digits := pretty n in
  String.concat "" (replicate (width - String.length digits) "0") +:+ digits.

(** The civil date of a day number counted from 1970-01-01. *)
Definition civil (days : Z) : Z * Z * Z :=
  let z := days + 719468 in
  let era := z / 146097 in
  let doe := z - era * 146097 in
  let yoe := (doe - doe / 1460 + doe / 36524 - doe / 146096) / 365 in
  let doy := doe - (365 * yoe + yoe / 4 - yoe / 100) in
  let mp := (5 * doy + 2) / 153 in
  let d := doy - (153 * mp + 2) / 5 + 1 in
  let m := if mp <? 10 then mp + 3 else mp - 9 in
  let y := yoe + era * 400 + (if m <=? 2 then 1 else 0) in
  (y, m, d).

Definition utc_isoformat (seconds : Z) : string :=
  let '(y, m, d) := civil (seconds / 86400) in
  let rest := seconds mod 86400 in
  pad 4 y +:+ "-" +:+ pad 2 m +:+ "-" +:+ pad 2 d +:+ "T" +:+
  pad 2 (rest / 3600) +:+ ":" +:+ pad 2 (rest mod 3600 / 60) +:+ ":" +:+
  pad 2 (rest mod 60) +:+ "+00:00".

#[export] Instance utc : DateTime := {|
  datetime := Z;
  isoformat := utc_isoformat;
  timestamp := fun seconds => seconds
|}.

Definition two_factor : client_error :=
  ClientErr true "Two-steps verification is enabled and a password is required".

Definition password_needed : client_error :=
  ClientErr true "SESSION_PASSWORD_NEEDED".

(** An identifier with the unit separator (character 31) before its
    digits: [str.strip] would drop it, [int] does not skip it. *)
Definition separator_id : string := String "031" "12".

Definition flood : client_error :=
  ClientErr true "A wait of 30 seconds is required".

(** A client of an account that is signed in or not, whose first sign-in
    answers [first], holding the given dialogs, messages and search
    results. *)
Definition client (authorized : bool) (first : response unit)
    (dialogs : list Dialog.t) (msgs : list Message.t)
    (found : list Message.t * option client_error) : TelegramClient := {|
  connect := Ok tt;
  is_user_authorized := Ok authorized;
  send_code_request := fun _ => Ok tt;
  sign_in := fun _ _ => first;
  sign_in_password := fun _ => Ok tt;
  get_me := Ok (User.Build 7 (Some "ada"));
  disconnect := Ok tt;
  aenter := Ok tt;
  aexit := Ok tt;
  get_dialogs := fun limit => Ok (take (Z.to_nat limit) dialogs);
  get_entity := fun chat => Ok {[ "username" := chat ]};
  get_messages := fun _ limit => Ok (take (Z.to_nat limit) msgs);
  iter_messages := fun _ limit => (take (Z.to_nat limit) (fst found), snd found)
|}.

Definition env (id hash : string) : gmap string string :=
  {[ "TG_API_ID" := id; "TG_API_HASH" := hash ]}.

(** A world with the environment [e], and one with both secrets set, in
    which the library hands out [c]. *)
Definition world_in (e : gmap string string) (c : TelegramClient) : world :=
  {| environ := e; telethon := fun _ _ _ => Ok c |}.

Definition world_of (c : TelegramClient) : world :=
  world_in (env "12345" "0123abcd") c.

Definition idle : TelegramClient := client true (Ok tt) [] [] ([], None).
Definition fresh : TelegramClient := client false (Ok tt) [] [] ([], None).

Definition abc : list Dialog.t :=
  [ Dialog.Build 1 {[ "title" := "A" ]};
    Dialog.Build 2 {[ "title" := "B" ]};
    Dialog.Build 3 {[ "title" := "C" ]} ].

Definition unnamed : Dialog.t := Dialog.Build (-1001) ∅.

Definition listing : TelegramClient := client true (Ok tt) abc [] ([], None).

Definition hello : Message.t :=
  Message.Build _ (Some "hello") 1700000000 (Some 42) (Ok {[ "title" := "Team" ]}).

Definition two_lines : Message.t :=
  Message.Build _ (Some ("line1" +:+ String Py.nl "line2")) 1700000060 (Some 42)
    (Fails flood).

Definition no_body : Message.t :=
  Message.Build _ None 1700000120 None (Fails flood).

(** An account with a second factor: the code 12345 is right and then
    the password is asked for, another code is turned down; leaving the
    session fails. *)
Definition guarded : TelegramClient := {|
  connect := Ok tt;
  is_user_authorized := Ok false;
  send_code_request := fun _ => Ok tt;
  sign_in := fun _ code =>
    if String.eqb code "12345" then Fails password_needed
    else Fails (ClientErr true "The phone code entered was invalid");
  sign_in_password := fun _ => Ok tt;
  get_me := Ok (User.Build 7 (Some "ada"));
  disconnect := Ok tt;
  aenter := Ok tt;
  aexit := Fails flood;
  get_dialogs := fun limit => Ok (take (Z.to_nat limit) abc);
  get_entity := fun chat => Ok {[ "username" := chat ]};
  get_messages := fun _ _ => Ok [];
  iter_messages := fun _ _ => ([], None)
|}.

(** The same account when every password is turned down. *)
Definition locked : TelegramClient := {|
  connect := Ok tt;
  is_user_authorized := Ok false;
  send_code_request := fun _ => Ok tt;
  sign_in := fun _ _ => Fails two_factor;
  sign_in_password := fun _ =>
    Fails (ClientErr true "The password (and thus its hash value) you entered is invalid");
  get_me := Ok (User.Build 7 (Some "ada"));
  disconnect := Ok tt;
  aenter := Ok tt;
  aexit := Ok tt;
  get_dialogs := fun limit => Ok (take (Z.to_nat limit) abc);
  get_entity := fun chat => Ok {[ "username" := chat ]};
  get_messages := fun _ _ => Ok [];
  iter_messages := fun _ _ => ([], None)
|}.

(** An account whose sign-in is cancelled. *)
Definition interrupted : TelegramClient :=
  client false (Fails (ClientErr false "cancelled while the password was checked"))
    [] [] ([], None).

(** A library that refuses to build a client. *)
Definition refusing : world :=
  {| environ := env "0" "0123abcd";
     telethon := fun _ _ _ =>
       Fails (ClientErr true "Your API ID or Hash cannot be empty or None") |}.

(** A search whose iterator raises after two results, the second one in
    a chat without any name. *)
Definition nameless : Message.t :=
  Message.Build _ (Some "hi") 1700000180 (Some 99) (Ok ∅).

Definition flooded : TelegramClient :=
  client true (Ok tt) [Dialog.Build 5 {[ "title" := ""; "first_name" := "" ]}] []
    ([hello; nameless], Some flood).

(** An account without the chat that is asked for. *)
Definition lonely : TelegramClient := {|
  connect := Ok tt;
  is_user_authorized := Ok true;
  send_code_request := fun _ => Ok tt;
  sign_in := fun _ _ => Ok tt;
  sign_in_password := fun _ => Ok tt;
  get_me := Ok (User.Build 7 None);
  disconnect := Ok tt;
  aenter := Ok tt;
  aexit := Ok tt;
  get_dialogs := fun _ => Ok [];
  get_entity := fun chat =>
    Fails (ClientErr true ("Cannot find any entity corresponding to " +:+ chat));
  get_messages := fun _ _ => Ok [];
  iter_messages := fun _ _ => ([], None)
|}.

(** A search that finds three messages: the chat of the first is found,
    the lookups of the other two fail. *)
Definition finder : TelegramClient :=
  client true (Ok tt) [unnamed] [] ([hello; two_lines; no_body], None).

(** A chat that answers newest first, as the library does, and one that
    answers oldest first. *)
Definition chatty : TelegramClient :=
  client true (Ok tt) [] [no_body; two_lines; hello] ([], None).

Definition backwards : TelegramClient :=
  client true (Ok tt) [] [hello; two_lines] ([], None).

End Fake.

(** ** How programs run *)

Section Running.
Context `{DateTime}.

Lemma run_bind {A B} (m : M A) (f : A -> M B) (s : state) :
  (m ≫= f) s =
  match m s with
  | (Return a, s') => f a s'
  | (Raise e, s') => (Raise e, s')
  end.
Proof. reflexivity. Qed.

Lemma run_await_ok {A} (c : call) (r : response A) (a : A) (s : state) :
  r = Ok a ->
  await c r s = (Return a, State (stdin s) (trace s ++ [Await c])).
Proof. intros ->. reflexivity. Qed.

Lemma run_await_fails {A} (c : call) (r : response A) (e : client_error) (s : state) :
  r = Fails e ->
  await c r s = (Raise (ClientError e), State (stdin s) (trace s ++ [Await c])).
Proof. intros ->. reflexivity. Qed.

Lemma run_for_each_print {A} (line : A -> string) (xs : list A) (s : state) :
  for_each xs (fun x => print (line x)) s =
  (Return tt, State (stdin s) (trace s ++ (Print ∘ line <$> xs))).
Proof.
  revert s. induction xs as [|x xs IH]; intros [lines tr]; simpl.
  - unfold mret, M_ret. by rewrite app_nil_r.
  - rewrite run_bind. unfold print, emit at 1. simpl.
    rewrite IH. simpl. by rewrite <- app_assoc.
Qed.

Lemma stdout_app (tr1 tr2 : list event) :
  stdout (tr1 ++ tr2) = stdout tr1 ++ stdout tr2.
Proof. unfold stdout. apply omap_app. Qed.

Lemma stdout_prints {A} (line : A -> string) (xs : list A) :
  stdout (Print ∘ line <$> xs) = line <$> xs.
Proof. induction xs as [|x xs IH]; [done|]. unfold stdout in *. simpl. by f_equal. Qed.

Lemma int_empty : Py.int "" = None.
Proof. reflexivity. Qed.

Lemma run_get_client (w : world) (n : Z) (hash : string) (client : TelegramClient) (s : state) :
  builds w n hash client ->
  get_client w s =
  (Return client, State (stdin s) (trace s ++ [New SESSION_PATH n hash])).
Proof.
  intros (id & Hid & Hint & Hhash & Hne & Hnew). unfold get_client.
  rewrite Hid, Hhash. simpl.
  destruct id as [|c id]; [by rewrite int_empty in Hint|].
  destruct hash as [|c' hash]; [done|]. simpl.
  rewrite Hint, run_bind. simpl. by rewrite Hnew.
Qed.

End Running.

Lemma fake_builds (c : TelegramClient) :
  builds (Fake.world_of c) 12345 "0123abcd" c.
Proof. exists "12345". repeat split. discriminate. Qed.

(** ** Integer literals *)

Lemma append_assoc (a b c : string) : (a +:+ b) +:+ c = a +:+ b +:+ c.
Proof.
  induction a as [|x a IH]; [done|].
  change (String x ((a +:+ b) +:+ c) = String x (a +:+ b +:+ c)). by f_equal.
Qed.

Lemma append_empty (a : string) : a +:+ "" = a.
Proof.
  induction a as [|x a IH]; [done|].
  change (String x (a +:+ "") = String x a). by f_equal.
Qed.

Lemma occurs_app (c : ascii) (a b : string) :
  occurs c (a +:+ b) = occurs c a || occurs c b.
Proof. induction a as [|c' a IH]; simpl; [done|]. by rewrite IH, orb_assoc. Qed.

Lemma is_blank_blank (c : ascii) : Py.is_blank c = true <-> blank c.
Proof.
  unfold blank. destruct c as [[] [] [] [] [] [] [] []]; vm_compute;
    split; intros Hc; try done; try (by intuition discriminate); tauto.
Qed.

Lemma is_digit_digit (c : ascii) : Py.is_digit c = true <-> digit c.
Proof.
  unfold digit. destruct c as [[] [] [] [] [] [] [] []]; vm_compute;
    split; intros Hc; try done; try (by intuition discriminate); tauto.
Qed.

(** What [int] skips at the start is made of blanks. *)
Lemma skip_blanks_split (s : string) :
  exists before, s = before +:+ Py.skip_blanks s /\ blanks before.
Proof.
  induction s as [|c s (before & Hs & Hb)]; [by exists ""|]. simpl.
  destruct (Py.is_blank c) eqn:Hc; [|by exists ""].
  exists (String c before). split.
  - change (String c s = String c (before +:+ Py.skip_blanks s)). by f_equal.
  - split; [by apply is_blank_blank | done].
Qed.

Lemma drop_blanks_at_end_split (s : string) :
  exists after, s = Py.drop_blanks_at_end s +:+ after /\ blanks after.
Proof.
  induction s as [|c s (after & Hs & Hb)]; [by exists ""|]. simpl.
  destruct (Py.drop_blanks_at_end s) as [|c' kept] eqn:Hkept.
  - change (s = after) in Hs. subst after. destruct (Py.is_blank c) eqn:Hc.
    + exists (String c s). split; [done|]. split; [by apply is_blank_blank | done].
    + by exists s.
  - exists after. split; [|done].
    change (String c s = String c (String c' kept +:+ after)). by f_equal.
Qed.

(** The scan of the digits accepts groups of digits only. *)
Lemma digits_groups (s : string) (acc : Z) (after_digit : bool) (v : Z) :
  Py.digits acc after_digit s = Some v ->
  digit_groups s \/
  (after_digit = true /\ (s = "" \/ exists rest, s = String "_" rest /\ digit_groups rest)).
Proof.
  revert acc after_digit. induction s as [|c s IH]; intros acc b Hread.
  - simpl in Hread. destruct b; [|done]. right. by split; [|left].
  - cbn [Py.digits] in Hread. destruct (Py.is_digit c) eqn:Hc.
    + apply is_digit_digit in Hc. left.
      destruct (IH _ _ Hread) as [Hg | [_ [-> | (rest & -> & Hg)]]].
      * by apply groups_next.
      * by apply groups_digit.
      * by apply groups_underscore.
    + destruct (Ascii.eqb_spec c "_") as [->|]; [|done].
      destruct b; [|done]. simpl in Hread. right. split; [done|]. right.
      exists s. split; [done|].
      by destruct (IH _ _ Hread) as [Hg | [[=] _]].
Qed.

(** Every string that [int] reads is an integer literal. *)
Lemma literal_int_literal (s : string) (v : Z) :
  Py.literal s = Some v -> int_literal s.
Proof.
  unfold Py.literal. intros Hread.
  destruct (skip_blanks_split s) as (before & Hs & Hbefore).
  destruct (drop_blanks_at_end_split (Py.skip_blanks s)) as (after & Hrest & Hafter).
  assert (exists sign body,
            Py.drop_blanks_at_end (Py.skip_blanks s) = sign +:+ body /\
            (sign = "" \/ sign = "+" \/ sign = "-") /\ digit_groups body)
    as (sign & body & Hbody & Hsign & Hgroups).
  { destruct (Py.drop_blanks_at_end (Py.skip_blanks s)) as [|c body]; [done|].
    assert (forall u w, Py.digits 0 false u = Some w -> digit_groups u) as Hg.
    { intros u w Hu. by destruct (digits_groups _ _ _ _ Hu) as [? | [[=] _]]. }
    destruct (Ascii.eqb_spec c "+") as [->|Hplus];
      [|destruct (Ascii.eqb_spec c "-") as [->|Hminus]].
    - exists "+", body. split; [done|]. split; [by right; left | by eapply Hg].
    - exists "-", body. split; [done|]. split; [by right; right|].
      destruct (Py.digits 0 false body) as [w|] eqn:Hw; [by eapply Hg | done].
    - exists "", (String c body). split; [done|]. split; [by left|].
      eapply Hg with v.
      destruct c as [[] [] [] [] [] [] [] []]; try done. }
  exists before, sign, body, after. split; [|done].
  rewrite Hs at 1. rewrite Hrest at 1. by rewrite Hbody, append_assoc.
Qed.

Lemma skip_blanks_app (before rest : string) :
  blanks before -> Py.skip_blanks (before +:+ rest) = Py.skip_blanks rest.
Proof.
  induction before as [|c before IH]; [done|]. intros [Hc Hb].
  change (Py.skip_blanks (String c (before +:+ rest)) = Py.skip_blanks rest).
  apply is_blank_blank in Hc. simpl. rewrite Hc. by apply IH.
Qed.

Lemma drop_blanks (after : string) :
  blanks after -> Py.drop_blanks_at_end after = "".
Proof.
  induction after as [|c after IH]; [done|]. intros [Hc Hb].
  apply is_blank_blank in Hc. simpl. by rewrite IH, Hc.
Qed.

Lemma drop_blanks_at_end_app (kept after : string) :
  blanks after -> Py.drop_blanks_at_end (kept +:+ after) = Py.drop_blanks_at_end kept.
Proof.
  intros Hb. induction kept as [|c kept IH]; [by apply drop_blanks|].
  change (Py.drop_blanks_at_end (String c (kept +:+ after)) =
          Py.drop_blanks_at_end (String c kept)).
  simpl. by rewrite IH.
Qed.

(** A string without a blank is kept whole. *)
Lemma drop_blanks_at_end_clean (s : string) :
  (forall c, occurs c s = true -> Py.is_blank c = false) ->
  Py.drop_blanks_at_end s = s.
Proof.
  induction s as [|c s IH]; [done|]. intros Hclean. simpl.
  rewrite IH by (intros c' Hc'; apply Hclean; simpl; by rewrite Hc', orb_true_r).
  rewrite (Hclean c) by (simpl; by rewrite Ascii.eqb_refl). by destruct s.
Qed.

Lemma digit_groups_chars (body : string) (c : ascii) :
  digit_groups body -> occurs c body = true -> digit c \/ c = "_"%char.
Proof.
  induction 1 as [d Hd | d rest Hd _ IH | d rest Hd _ IH]; cbn [occurs]; intros Hc.
  - rewrite orb_false_r in Hc. apply Ascii.eqb_eq in Hc as ->. by left.
  - apply orb_true_iff in Hc as [Hc | Hc]; [|by apply IH].
    apply Ascii.eqb_eq in Hc as ->. by left.
  - apply orb_true_iff in Hc as [Hc | Hc]; [apply Ascii.eqb_eq in Hc as ->; by left|].
    apply orb_true_iff in Hc as [Hc | Hc]; [|by apply IH].
    apply Ascii.eqb_eq in Hc as <-. by right.
Qed.

Lemma digit_groups_digits (body : string) :
  digit_groups body -> forall acc b, exists v, Py.digits acc b body = Some v.
Proof.
  induction 1 as [d Hd | d rest Hd _ IH | d rest Hd _ IH]; intros acc b;
    apply is_digit_digit in Hd as Hd'; cbn [Py.digits]; rewrite Hd'.
  - by eexists.
  - apply IH.
  - assert (Py.is_digit "_" = false) as -> by done.
    rewrite Ascii.eqb_refl. simpl. apply IH.
Qed.

(** Every integer literal is read by [int], when it is not too long. *)
Lemma int_literal_literal (s : string) :
  int_literal s -> exists v, Py.literal s = Some v.
Proof.
  intros (before & sign & body & after & -> & Hbefore & Hafter & Hsign & Hgroups).
  assert (forall c, occurs c (sign +:+ body) = true -> Py.is_blank c = false) as Hclean.
  { intros c. rewrite occurs_app. intros [Hc | Hc]%orb_true_iff.
    - destruct Hsign as [-> | [-> | ->]]; cbn [occurs] in Hc; [done| |];
        rewrite orb_false_r in Hc; by apply Ascii.eqb_eq in Hc as <-.
    - destruct (digit_groups_chars body c Hgroups Hc) as [Hd | ->]; [|done].
      destruct (Py.is_blank c) eqn:Hblank; [|done].
      apply is_blank_blank in Hblank. unfold blank, digit in *. simpl in *.
      intuition (subst; discriminate). }
  assert (exists d rest, body = String d rest /\ digit d) as (d & rest & Hbody & Hd)
    by (destruct Hgroups; by eexists _, _).
  unfold Py.literal.
  rewrite skip_blanks_app, <- !append_assoc by done.
  assert (Py.skip_blanks ((sign +:+ body) +:+ after) = (sign +:+ body) +:+ after) as ->.
  { destruct (sign +:+ body) as [|c kept] eqn:Hkept.
    - destruct Hsign as [-> | [-> | ->]]; by subst body.
    - change (Py.skip_blanks (String c (kept +:+ after)) = String c (kept +:+ after)).
      simpl. rewrite (Hclean c); [done|]. simpl. by rewrite Ascii.eqb_refl. }
  rewrite drop_blanks_at_end_app, drop_blanks_at_end_clean by done.
  destruct (digit_groups_digits body Hgroups 0 false) as [v Hv].
  destruct Hsign as [-> | [-> | ->]].
  - change ("" +:+ body) with body. exists v. rewrite <- Hv. subst body.
    apply is_digit_digit in Hd.
    by destruct d as [[] [] [] [] [] [] [] []].
  - exists v. exact Hv.
  - exists (- v). change ("-" +:+ body) with (String "-" body). cbv iota beta.
    by rewrite Hv.
Qed.

Lemma int_reads (s : string) :
  (exists v, Py.int s = Some v) <->
  int_literal s /\ (Py.digit_count s <= Py.max_str_digits)%N.
Proof.
  unfold Py.int. split.
  - intros [v Hv]. destruct (Py.literal s) as [v'|] eqn:Hread; [|done].
    destruct (N.ltb_spec Py.max_str_digits (Py.digit_count s)); [done|].
    split; [by eapply literal_int_literal | done].
  - intros [[v ->]%int_literal_literal Hmax]. exists v.
    by destruct (N.ltb_spec Py.max_str_digits (Py.digit_count s)); [lia|].
Qed.

Lemma int_not_literal (s : string) : ~ int_literal s -> Py.int s = None.
Proof.
  intros Hnot. destruct (Py.int s) as [v|] eqn:Hv; [|done].
  destruct Hnot. apply int_reads. by exists v.
Qed.

(** ** Secrets and the client handle *)

Section Secrets.
Context `{DateTime}.

Lemma get_client_missing (w : world) (s : state) :
  secret_missing w "TG_API_ID" \/ secret_missing w "TG_API_HASH" ->
  get_client w s =
  (Raise (SystemExit "Missing TG_API_ID/TG_API_HASH (check /opt/openclaw/secret/tg.env)"), s).
Proof.
  unfold get_client, secret_missing.
  intros [[-> | ->] | [-> | ->]]; try done.
  - by destruct (environ w !! "TG_API_HASH").
  - by destruct (environ w !! "TG_API_ID").
  - destruct (environ w !! "TG_API_ID") as [id|]; [|done].
    simpl. by rewrite orb_true_r.
Qed.

Lemma get_client_bad_id (w : world) (id hash : string) (s : state) :
  environ w !! "TG_API_ID" = Some id -> id <> "" -> Py.int id = None ->
  environ w !! "TG_API_HASH" = Some hash -> hash <> "" ->
  get_client w s = (Raise (ValueError id), s).
Proof.
  intros Hid Hne Hint Hhash Hne'. unfold get_client. rewrite Hid, Hhash.
  destruct id; [done|]. destruct hash; [done|]. simpl. by rewrite Hint.
Qed.

(** Every command starts with [get_client] and stops where it raises. *)
Lemma main_stops (w : world) (a : args) (e : exn) (s s' : state) :
  get_client w s = (Raise e, s') -> main w a s = (Raise e, s').
Proof.
  intros Hget.
  destruct a; simpl; unfold cmd_login, cmd_dialogs, cmd_tail, cmd_search;
    by rewrite run_bind, Hget.
Qed.

End Secrets.

(** C4: whatever the command, when TG_API_ID or TG_API_HASH is absent
    from the environment or empty (the configuration file being loaded),
    the process ends with the message naming the two keys and a non-zero
    status, and nothing has happened before: no client handle was built
    and no call of the client was awaited. *)
Theorem missing_secret_aborts `{DateTime} (w : world) (a : args) (lines : list string) :
  secret_missing w "TG_API_ID" \/ secret_missing w "TG_API_HASH" ->
  run w a lines =
    (Raise (SystemExit "Missing TG_API_ID/TG_API_HASH (check /opt/openclaw/secret/tg.env)"),
     State lines []) /\
  exit_status (fst (run w a lines)) = Some 1.
Proof.
  intros Hmiss. unfold run.
  rewrite (main_stops w a _ _ _ (get_client_missing w _ Hmiss)).
  split; reflexivity.
Qed.

Lemma missing_secret_aborts_witness :
  run (Fake.world_in {[ "TG_API_ID" := "12345" ]} Fake.idle) (Dialogs 30) [] =
    (Raise (SystemExit "Missing TG_API_ID/TG_API_HASH (check /opt/openclaw/secret/tg.env)"),
     State [] []) /\
  exit_status (fst (run (Fake.world_in {[ "TG_API_ID" := "12345" ]} Fake.idle)
                        (Dialogs 30) [])) = Some 1.
Proof.
  apply (missing_secret_aborts (Fake.world_in {[ "TG_API_ID" := "12345" ]} Fake.idle)).
  right. left. reflexivity.
Defined.

(** C9: when TG_API_ID is a non-empty string (of ASCII characters) that
    is no integer literal and TG_API_HASH is non-empty, [get_client] gets
    past the test for missing secrets and raises the [ValueError] of the
    conversion, which nothing catches: every command ends with it, no
    client handle was built and no call of the client was awaited. *)
Theorem bad_api_id_raises `{DateTime} (w : world) (a : args) (lines : list string)
    (id hash : string) :
  environ w !! "TG_API_ID" = Some id -> id <> "" ->
  Py.is_ascii id = true -> ~ int_literal id ->
  environ w !! "TG_API_HASH" = Some hash -> hash <> "" ->
  (forall s, get_client w s = (Raise (ValueError id), s)) /\
  run w a lines = (Raise (ValueError id), State lines []) /\
  exit_status (fst (run w a lines)) = Some 1.
Proof.
  intros Hid Hne _ Hlit Hhash Hne'. apply int_not_literal in Hlit.
  assert (forall s, get_client w s = (Raise (ValueError id), s)) as Hget
    by (intros s; by apply get_client_bad_id with hash).
  split; [exact Hget|]. unfold run. rewrite (main_stops w a _ _ _ (Hget _)).
  split; reflexivity.
Qed.

Lemma bad_api_id_raises_witness :
  (forall s, get_client (Fake.world_in (Fake.env Fake.separator_id "0123abcd") Fake.idle) s =
             (Raise (ValueError Fake.separator_id), s)) /\
  run (Fake.world_in (Fake.env Fake.separator_id "0123abcd") Fake.idle) (Tail "@ada" 50) [] =
    (Raise (ValueError Fake.separator_id), State [] []) /\
  exit_status (fst (run (Fake.world_in (Fake.env Fake.separator_id "0123abcd") Fake.idle)
                        (Tail "@ada" 50) [])) = Some 1.
Proof.
  apply (bad_api_id_raises (Fake.world_in (Fake.env Fake.separator_id "0123abcd") Fake.idle)
           (Tail "@ada" 50) [] Fake.separator_id "0123abcd");
    [reflexivity | discriminate | reflexivity | | reflexivity | discriminate].
  intros [v Hv]%int_literal_literal. vm_compute in Hv. discriminate Hv.
Defined.

(** C8: [login] without [--phone] on a session that is not authorized
    ends with the usage error and a non-zero status; the client was built
    and only two calls were awaited, the connection and the check of the
    authorization: no code was requested. *)
Theorem login_without_phone `{DateTime} (w : world) (lines : list string)
    (n : Z) (hash : string) (client : TelegramClient) :
  builds w n hash client ->
  connect client = Ok tt ->
  is_user_authorized client = Ok false ->
  run w (Login None) lines =
    (Raise (SystemExit "First-time login requires --phone +<countrycode><number>"),
     State lines [New SESSION_PATH n hash; Await Connect; Await IsUserAuthorized]) /\
  exit_status (fst (run w (Login None) lines)) = Some 1.
Proof.
  intros Hb Hc Ha.
  assert (run w (Login None) lines =
    (Raise (SystemExit "First-time login requires --phone +<countrycode><number>"),
     State lines [New SESSION_PATH n hash; Await Connect; Await IsUserAuthorized])) as Hrun.
  { unfold run, main, cmd_login.
    rewrite run_bind, (run_get_client w n hash client _ Hb).
    rewrite run_bind, (run_await_ok _ _ tt _ Hc).
    rewrite run_bind, (run_await_ok _ _ false _ Ha).
    reflexivity. }
  rewrite Hrun. split; reflexivity.
Qed.

Lemma login_without_phone_witness :
  run (Fake.world_of Fake.fresh) (Login None) ["12345"] =
    (Raise (SystemExit "First-time login requires --phone +<countrycode><number>"),
     State ["12345"] [New SESSION_PATH 12345 "0123abcd"; Await Connect; Await IsUserAuthorized]) /\
  exit_status (fst (run (Fake.world_of Fake.fresh) (Login None) ["12345"])) = Some 1.
Proof.
  apply (login_without_phone (Fake.world_of Fake.fresh) ["12345"] 12345 "0123abcd" Fake.fresh);
    [ apply fake_builds | reflexivity | reflexivity ].
Defined.

(** ** Listing and reading *)

Section Scoped.
Context `{DateTime}.

(** [async with client: body] once the handle is entered: the body runs,
    then the exit, whose failure is the one that is raised. *)
Lemma run_async_with {A} (client : TelegramClient) (body : M A) (s : state)
    (r : outcome A) (s' : state) :
  aenter client = Ok tt ->
  body (State (stdin s) (trace s ++ [Await Enter])) = (r, s') ->
  async_with client body s =
  (match aexit client with
   | Ok _ => r
   | Fails e => Raise (ClientError e)
   end, State (stdin s') (trace s' ++ [Await Exit])).
Proof.
  intros Henter Hbody. unfold async_with.
  rewrite run_bind, (run_await_ok _ _ tt _ Henter).
  unfold finally. rewrite Hbody.
  destruct (aexit client) as [[]|e] eqn:Hexit.
  - by rewrite (run_await_ok _ _ tt _ eq_refl).
  - by rewrite (run_await_fails _ _ e _ eq_refl).
Qed.

Lemma run_async_with_refused {A} (client : TelegramClient) (body : M A) (s : state)
    (e : client_error) :
  aenter client = Fails e ->
  async_with client body s =
  (Raise (ClientError e), State (stdin s) (trace s ++ [Await Enter])).
Proof.
  intros Henter. unfold async_with.
  by rewrite run_bind, (run_await_fails _ _ e _ Henter).
Qed.

Lemma run_dialogs (w : world) (lines : list string) (limit n : Z) (hash : string)
    (client : TelegramClient) (ds : list Dialog.t) :
  builds w n hash client ->
  aenter client = Ok tt ->
  get_dialogs client limit = Ok ds ->
  run w (Dialogs limit) lines =
  (match aexit client with
   | Ok _ => Return tt
   | Fails e => Raise (ClientError e)
   end,
   State lines ([New SESSION_PATH n hash; Await Enter; Await (GetDialogs limit)]
                ++ (Print ∘ dialogs_line <$> ds) ++ [Await Exit])).
Proof.
  intros Hb Henter Hds. unfold run, main, cmd_dialogs.
  rewrite run_bind, (run_get_client w n hash client _ Hb).
  erewrite run_async_with; [|done|].
  2:{ rewrite run_bind, (run_await_ok _ _ ds _ Hds). apply run_for_each_print. }
  simpl. by rewrite <- ?app_assoc.
Qed.

Lemma run_tail (w : world) (lines : list string) (chat : string) (limit n : Z)
    (hash : string) (client : TelegramClient) (entity : object)
    (msgs : list Message.t) :
  builds w n hash client ->
  aenter client = Ok tt ->
  get_entity client chat = Ok entity ->
  get_messages client entity limit = Ok msgs ->
  run w (Tail chat limit) lines =
  (match aexit client with
   | Ok _ => Return tt
   | Fails e => Raise (ClientError e)
   end,
   State lines ([New SESSION_PATH n hash; Await Enter; Await (GetEntity chat);
                 Await (GetMessages limit)]
                ++ (Print ∘ tail_line <$> reverse msgs) ++ [Await Exit])).
Proof.
  intros Hb Henter Hent Hmsgs. unfold run, main, cmd_tail.
  rewrite run_bind, (run_get_client w n hash client _ Hb).
  erewrite run_async_with; [|done|].
  2:{ rewrite run_bind, (run_await_ok _ _ entity _ Hent).
      rewrite run_bind, (run_await_ok _ _ msgs _ Hmsgs).
      apply run_for_each_print. }
  simpl. by rewrite <- ?app_assoc.
Qed.

Lemma stdout_dialogs (w : world) (lines : list string) (limit n : Z) (hash : string)
    (client : TelegramClient) (ds : list Dialog.t) :
  builds w n hash client ->
  aenter client = Ok tt ->
  get_dialogs client limit = Ok ds ->
  stdout (trace (snd (run w (Dialogs limit) lines))) = dialogs_line <$> ds.
Proof.
  intros Hb Henter Hds. rewrite (run_dialogs w lines limit n hash client ds) by done.
  simpl. rewrite stdout_app, stdout_prints. simpl. by rewrite app_nil_r.
Qed.

Lemma stdout_tail (w : world) (lines : list string) (chat : string) (limit n : Z)
    (hash : string) (client : TelegramClient) (entity : object)
    (msgs : list Message.t) :
  builds w n hash client ->
  aenter client = Ok tt ->
  get_entity client chat = Ok entity ->
  get_messages client entity limit = Ok msgs ->
  stdout (trace (snd (run w (Tail chat limit) lines))) = tail_line <$> reverse msgs.
Proof.
  intros Hb Henter Hent Hmsgs.
  rewrite (run_tail w lines chat limit n hash client entity msgs) by done.
  simpl. rewrite stdout_app, stdout_prints. simpl. by rewrite app_nil_r.
Qed.

End Scoped.

(** C5: [dialogs] with limit [limit] against a service that holds the
    conversations [convs] and hands out the first [limit] of them prints
    one line per conversation handed out, the id, a tab, then the label,
    in the order of the listing; so it prints min(limit, number of
    conversations) lines.  With the dialogs A, B, C and limit 2 these are
    the lines of A and of B (the instance shown after the theorem). *)
Theorem dialogs_prints_listing `{DateTime} (w : world) (lines : list string)
    (limit n : Z) (hash : string) (client : TelegramClient) (convs : list Dialog.t) :
  builds w n hash client ->
  aenter client = Ok tt ->
  get_dialogs client limit = Ok (take (Z.to_nat limit) convs) ->
  let out := stdout (trace (snd (run w (Dialogs limit) lines))) in
  out = (fun d => Py.str_int (Dialog.id d) +:+
                  String Py.tab (Py.str (dialogs_title (Dialog.entity d))))
        <$> take (Z.to_nat limit) convs /\
  length out = Nat.min (Z.to_nat limit) (length convs) /\
  (0 <= limit -> Z.of_nat (length out) = Z.min limit (Z.of_nat (length convs))).
Proof.
  intros Hb Henter Hds out.
  assert (out = dialogs_line <$> take (Z.to_nat limit) convs) as Hout
    by (by apply stdout_dialogs with n hash client).
  assert (length out = Nat.min (Z.to_nat limit) (length convs)) as Hlen
    by (by rewrite Hout, length_fmap, length_take).
  split; [exact Hout|]. split; [exact Hlen|]. intros Hpos. lia.
Qed.

Lemma dialogs_prints_listing_witness :
  stdout (trace (snd (run (Fake.world_of Fake.listing) (Dialogs 2) []))) =
    ["1" +:+ String Py.tab "A"; "2" +:+ String Py.tab "B"] /\
  length (stdout (trace (snd (run (Fake.world_of Fake.listing) (Dialogs 2) [])))) =
    Nat.min 2 3 /\
  Z.of_nat (length (stdout (trace (snd (run (Fake.world_of Fake.listing) (Dialogs 2) [])))))
    = Z.min 2 3.
Proof.
  destruct (dialogs_prints_listing (Fake.world_of Fake.listing) [] 2 12345
              "0123abcd" Fake.listing Fake.abc (fake_builds _) eq_refl eq_refl)
    as (Hout & Hlen & Hmin).
  split; [exact Hout|]. split; [exact Hlen|]. apply Hmin. lia.
Defined.

(** ** Labels *)

Lemma or_first_non_empty (title username first_name : option string) (s : string) :
  first_non_empty [title; username; first_name] = Some s ->
  Py.or (Py.or title username) first_name = Some s.
Proof.
  unfold Py.or, Py.truthy; simpl.
  destruct title as [[|c t]|], username as [[|c' u]|], first_name as [[|c'' f]|];
    simpl; congruence.
Qed.

(** C6: on one entity the label of [dialogs] and the label of [search]
    are the same, and when one of title, username, first name holds a
    non-empty string both are the first of them, in that order, that
    does. *)
Theorem labels_agree (ent : object) :
  dialogs_title ent = search_chat ent /\
  forall s,
    first_non_empty [ent !! "title"; ent !! "username"; ent !! "first_name"] = Some s ->
    dialogs_title ent = Some s /\ search_chat ent = Some s /\
    Py.str (dialogs_title ent) = s /\ Py.str (search_chat ent) = s.
Proof.
  split; [reflexivity|]. intros s Hs.
  apply or_first_non_empty in Hs.
  unfold dialogs_title, search_chat, Py.getattr. by rewrite Hs.
Qed.

Lemma labels_agree_witness :
  dialogs_title {[ "username" := "ada"; "first_name" := "Ada" ]} = Some "ada" /\
  search_chat {[ "username" := "ada"; "first_name" := "Ada" ]} = Some "ada" /\
  Py.str (dialogs_title {[ "username" := "ada"; "first_name" := "Ada" ]}) = "ada" /\
  Py.str (search_chat {[ "username" := "ada"; "first_name" := "Ada" ]}) = "ada".
Proof.
  apply (proj2 (labels_agree {[ "username" := "ada"; "first_name" := "Ada" ]}) "ada").
  reflexivity.
Defined.

(** ** Message texts *)

Lemma replace_newlines (body : string) :
  Py.replace (String Py.nl "") " " body = newlines_to_spaces body.
Proof.
  unfold Py.replace. induction body as [|c rest IH]; [reflexivity|].
  cbn -[ascii_dec Ascii.eqb]. rewrite IH.
  destruct (ascii_dec Py.nl c) as [<-|Hne]; [by destruct rest|].
  destruct (Ascii.eqb_spec c Py.nl) as [->|_]; [done|reflexivity].
Qed.

Lemma newlines_to_spaces_length (body : string) :
  String.length (newlines_to_spaces body) = String.length body.
Proof. induction body; simpl; congruence. Qed.

Lemma newlines_to_spaces_get (body : string) (i : nat) :
  String.get i (newlines_to_spaces body) =
  (fun c => if Ascii.eqb c Py.nl then Py.space else c) <$> String.get i body.
Proof.
  revert i. induction body as [|c rest IH]; intros [|i]; simpl; done.
Qed.

Lemma text_of_spaces `{DateTime} (m : Message.t) :
  text_of m = newlines_to_spaces (default "" (Message.message m)).
Proof.
  unfold text_of. rewrite replace_newlines.
  by destruct (Message.message m) as [[|c s]|].
Qed.

(** C7: in every line that [tail] prints the text is the body of the
    message with each newline replaced by one space (the body "line1",
    newline, "line2" gives "line1 line2"), and a message whose body is
    empty or missing is printed with nothing after the timestamp and its
    space. *)
Theorem tail_collapses_newlines `{DateTime} (w : world) (lines : list string)
    (chat : string) (limit n : Z) (hash : string) (client : TelegramClient)
    (entity : object) (msgs : list Message.t) :
  builds w n hash client ->
  aenter client = Ok tt ->
  get_entity client chat = Ok entity ->
  get_messages client entity limit = Ok msgs ->
  stdout (trace (snd (run w (Tail chat limit) lines))) =
    (fun m => "[" +:+ isoformat (Message.date m) +:+ "] " +:+
              newlines_to_spaces (default "" (Message.message m))) <$> reverse msgs /\
  (forall m, m ∈ msgs ->
     Message.message m = Some ("line1" +:+ String Py.nl "line2") ->
     tail_line m = "[" +:+ isoformat (Message.date m) +:+ "] " +:+ "line1 line2") /\
  (forall m, m ∈ msgs ->
     Message.message m = None \/ Message.message m = Some "" ->
     tail_line m = "[" +:+ isoformat (Message.date m) +:+ "] " +:+ "").
Proof.
  intros Hb Henter Hent Hmsgs. split; [|split].
  - rewrite (stdout_tail w lines chat limit n hash client entity msgs) by done.
    apply list_fmap_ext. intros _ m _. unfold tail_line. by rewrite text_of_spaces.
  - intros m _ Hbody. unfold tail_line. by rewrite text_of_spaces, Hbody.
  - intros m _ Hbody. unfold tail_line. rewrite text_of_spaces.
    by destruct Hbody as [-> | ->].
Qed.

Lemma tail_collapses_newlines_witness :
  stdout (trace (snd (run (Fake.world_of Fake.chatty) (Tail "@ada" 50) []))) =
    [ "[2023-11-14T22:13:20+00:00] hello";
      "[2023-11-14T22:14:20+00:00] line1 line2";
      "[2023-11-14T22:15:20+00:00] " ] /\
  tail_line Fake.two_lines = "[2023-11-14T22:14:20+00:00] line1 line2" /\
  tail_line Fake.no_body = "[2023-11-14T22:15:20+00:00] ".
Proof.
  destruct (tail_collapses_newlines (Fake.world_of Fake.chatty) [] "@ada" 50
              12345 "0123abcd" Fake.chatty {[ "username" := "@ada" ]}
              [Fake.no_body; Fake.two_lines; Fake.hello]
              (fake_builds _) eq_refl eq_refl eq_refl) as (Hout & Htwo & Hnone).
  split; [exact Hout|]. split.
  - assert (Fake.two_lines ∈ [Fake.no_body; Fake.two_lines; Fake.hello]) as Hin
      by (right; left).
    exact (Htwo Fake.two_lines Hin eq_refl).
  - assert (Fake.no_body ∈ [Fake.no_body; Fake.two_lines; Fake.hello]) as Hin
      by left.
    exact (Hnone Fake.no_body Hin (or_introl eq_refl)).
Defined.

(** ** The order of [tail] *)

(** C1, as amended: [tail] prints the fetched messages in the reverse of
    the order in which [get_messages] returned them; when that order is
    newest first (dates non-increasing), the printed lines are in
    non-decreasing order of date, oldest first. *)
Theorem tail_reverses_upstream `{DateTime} (w : world) (lines : list string)
    (chat : string) (limit n : Z) (hash : string) (client : TelegramClient)
    (entity : object) (msgs : list Message.t) :
  builds w n hash client ->
  aenter client = Ok tt ->
  get_entity client chat = Ok entity ->
  get_messages client entity limit = Ok msgs ->
  stdout (trace (snd (run w (Tail chat limit) lines))) = tail_line <$> reverse msgs /\
  (newest_first msgs ->
   oldest_first (reverse msgs) /\
   prints_oldest_first msgs (stdout (trace (snd (run w (Tail chat limit) lines))))).
Proof.
  intros Hb Henter Hent Hmsgs.
  assert (stdout (trace (snd (run w (Tail chat limit) lines)))
          = tail_line <$> reverse msgs) as Hout
    by (by apply stdout_tail with n hash client entity).
  split; [exact Hout|]. intros Hnew.
  assert (oldest_first (reverse msgs)) as Hold.
  { apply Sorted_reverse in Hnew. exact Hnew. }
  split; [exact Hold|].
  exists (reverse msgs). split; [apply reverse_Permutation|]. by split.
Qed.

Lemma tail_reverses_upstream_witness :
  stdout (trace (snd (run (Fake.world_of Fake.chatty) (Tail "@ada" 50) []))) =
    [ "[2023-11-14T22:13:20+00:00] hello";
      "[2023-11-14T22:14:20+00:00] line1 line2";
      "[2023-11-14T22:15:20+00:00] " ] /\
  oldest_first [Fake.hello; Fake.two_lines; Fake.no_body] /\
  prints_oldest_first [Fake.no_body; Fake.two_lines; Fake.hello]
    (stdout (trace (snd (run (Fake.world_of Fake.chatty) (Tail "@ada" 50) [])))).
Proof.
  destruct (tail_reverses_upstream (Fake.world_of Fake.chatty) [] "@ada" 50
              12345 "0123abcd" Fake.chatty {[ "username" := "@ada" ]}
              [Fake.no_body; Fake.two_lines; Fake.hello]
              (fake_builds _) eq_refl eq_refl eq_refl) as [Hout Hsorted].
  split; [exact Hout|]. apply Hsorted.
  repeat constructor; unfold flip, not_after; simpl; lia.
Defined.

(** C1 as stated fails: a service that returns two messages oldest first
    gets them printed newest first. *)
Lemma tail_not_oldest_first :
  ~ prints_oldest_first [Fake.hello; Fake.two_lines]
      (stdout (trace (snd (run (Fake.world_of Fake.backwards) (Tail "@ada" 50) [])))).
Proof.
  intros (ms & Hperm & Hsorted & Hout).
  symmetry in Hperm. apply Permutation_length_2_inv in Hperm as [-> | ->].
  - vm_compute in Hout. discriminate Hout.
  - unfold oldest_first in Hsorted. apply Sorted_inv in Hsorted as [_ Hhd].
    apply HdRel_inv in Hhd. unfold not_after in Hhd. simpl in Hhd. lia.
Qed.

(** ** Searching *)

Section Searching.
Context `{DateTime}.

Lemma run_search_turn (m : Message.t) (s : state) :
  (forall e, Message.get_chat m = Fails e -> derives_Exception e = true) ->
  (chat ← try_await GetChat (Message.get_chat m) search_chat
            (fun _ => mret (Some (Py.str_opt_int (Message.chat_id m))));
   print (search_line chat m)) s =
  (Return tt, State (stdin s) (trace s ++ search_turn m)).
Proof.
  intros Hcaught. unfold search_turn, search_label, try_await.
  rewrite !run_bind. simpl.
  destruct (Message.get_chat m) as [c|e] eqn:Hchat; simpl.
  - unfold print, emit. simpl. by rewrite <- app_assoc.
  - rewrite (Hcaught e eq_refl). unfold print, emit. simpl. by rewrite <- app_assoc.
Qed.

Lemma run_search_turn_escapes (m : Message.t) (e : client_error) (s : state) :
  lookup_escapes m e ->
  (chat ← try_await GetChat (Message.get_chat m) search_chat
            (fun _ => mret (Some (Py.str_opt_int (Message.chat_id m))));
   print (search_line chat m)) s =
  (Raise (ClientError e), State (stdin s) (trace s ++ [Await GetChat])).
Proof.
  intros [Hchat Hbase]. unfold try_await. rewrite !run_bind. simpl.
  by rewrite Hchat, Hbase.
Qed.

Lemma run_search_loop (ms : list Message.t) (s : state) :
  (forall m e, m ∈ ms -> Message.get_chat m = Fails e -> derives_Exception e = true) ->
  for_each ms (fun m =>
    chat ← try_await GetChat (Message.get_chat m) search_chat
             (fun _ => mret (Some (Py.str_opt_int (Message.chat_id m))));
    print (search_line chat m)) s =
  (Return tt, State (stdin s) (trace s ++ (ms ≫= search_turn))).
Proof.
  revert s. induction ms as [|m ms IH]; intros s Hcaught.
  - simpl. unfold mret, M_ret. destruct s. by rewrite app_nil_r.
  - cbn [for_each]. rewrite run_bind, run_search_turn.
    + rewrite IH by (intros; eapply Hcaught; [by right | done]).
      cbn [stdin trace]. rewrite bind_cons. by rewrite <- app_assoc.
    + intros e. apply Hcaught. by left.
Qed.

Lemma run_search_loop_escapes (ms : list Message.t) :
  (exists m e, m ∈ ms /\ lookup_escapes m e) ->
  exists m e, m ∈ ms /\ lookup_escapes m e /\
    forall s, exists s',
      for_each ms (fun m =>
        chat ← try_await GetChat (Message.get_chat m) search_chat
                 (fun _ => mret (Some (Py.str_opt_int (Message.chat_id m))));
        print (search_line chat m)) s = (Raise (ClientError e), s').
Proof.
  induction ms as [|m ms IH]; intros (m' & e' & Hin & Hesc).
  - by apply elem_of_nil in Hin.
  - assert ((forall e, Message.get_chat m = Fails e -> derives_Exception e = true) \/
            exists e, lookup_escapes m e) as [Hcaught | [e He]].
    { unfold lookup_escapes.
      destruct (Message.get_chat m) as [c|e]; [left; congruence|].
      destruct (derives_Exception e) eqn:Hbase; [|right; by exists e].
      left. by intros e0 [= <-]. }
    + apply elem_of_cons in Hin as [-> | Hin].
      { destruct Hesc as [Hchat Hbase]. rewrite (Hcaught e' Hchat) in Hbase. done. }
      destruct IH as (m1 & e1 & Hin1 & Hesc1 & Hrun); [by exists m', e'|].
      exists m1, e1. split; [by right|]. split; [done|]. intros s.
      cbn [for_each]. rewrite run_bind, run_search_turn by done. apply Hrun.
    + exists m, e. split; [by left|]. split; [done|]. intros s. eexists.
      cbn [for_each]. by rewrite run_bind, (run_search_turn_escapes m e s He).
Qed.

Lemma stdout_search_turns (ms : list Message.t) :
  stdout (ms ≫= search_turn) = (fun m => search_line (search_label m) m) <$> ms.
Proof.
  induction ms as [|m ms IH]; [done|].
  rewrite bind_cons, stdout_app, IH. reflexivity.
Qed.

Lemma run_search (w : world) (lines : list string) (query : string) (limit n : Z)
    (hash : string) (client : TelegramClient) :
  builds w n hash client ->
  aenter client = Ok tt ->
  (forall m e, m ∈ fst (iter_messages client query limit) ->
     Message.get_chat m = Fails e -> derives_Exception e = true) ->
  run w (Search query limit) lines =
  (match aexit client with
   | Ok _ =>
       match snd (iter_messages client query limit) with
       | Some e => Raise (ClientError e)
       | None => Return tt
       end
   | Fails e => Raise (ClientError e)
   end,
   State lines ([New SESSION_PATH n hash; Await Enter; Await (IterMessages query limit)]
                ++ (fst (iter_messages client query limit) ≫= search_turn)
                ++ [Await Exit])).
Proof.
  intros Hb Henter Hcaught. unfold run, main, cmd_search.
  rewrite run_bind, (run_get_client w n hash client _ Hb).
  erewrite (run_async_with client _ _
              (match snd (iter_messages client query limit) with
               | Some e => Raise (ClientError e)
               | None => Return tt
               end)); [|done|].
  2:{ cbv zeta. rewrite run_bind. unfold emit at 1. cbn [stdin trace].
      rewrite run_bind, run_search_loop by done. cbn [stdin trace].
      destruct (snd (iter_messages client query limit)); reflexivity. }
  destruct (aexit client), (snd (iter_messages client query limit));
    simpl; by rewrite <- ?app_assoc.
Qed.

Lemma stdout_search (w : world) (lines : list string) (query : string) (limit n : Z)
    (hash : string) (client : TelegramClient) :
  builds w n hash client ->
  aenter client = Ok tt ->
  (forall m e, m ∈ fst (iter_messages client query limit) ->
     Message.get_chat m = Fails e -> derives_Exception e = true) ->
  stdout (trace (snd (run w (Search query limit) lines))) =
  (fun m => search_line (search_label m) m) <$> fst (iter_messages client query limit).
Proof.
  intros Hb Henter Hcaught. rewrite (run_search w lines query limit n hash client) by done.
  simpl. rewrite stdout_app, stdout_search_turns. simpl. by rewrite app_nil_r.
Qed.

End Searching.

(** ** Fallbacks of the labels *)

Lemma pretty_N_go_length (x : N) (s : string) :
  (String.length s <= String.length (pretty_N_go x s))%nat.
Proof.
  revert s. induction (N.lt_wf_0 x) as [x _ IH]. intros s.
  destruct (decide (x = 0)%N) as [-> | Hx]; [by rewrite pretty_N_go_0|].
  rewrite pretty_N_go_step by lia.
  etrans; [|apply IH; apply N.div_lt; lia]. simpl. lia.
Qed.

Lemma str_int_not_empty (n : Z) : Py.str_int n <> "".
Proof.
  assert (forall p : positive, pretty (N.pos p) <> "") as Hpos.
  { intros p Hp. unfold pretty, pretty_N in Hp.
    destruct (decide (N.pos p = 0)%N); [done|].
    pose proof (pretty_N_go_length (N.pos p `div` 10)
                  (String (pretty_N_char (N.pos p `mod` 10)) "")) as Hlen.
    rewrite <- pretty_N_go_step in Hlen by lia. rewrite Hp in Hlen.
    simpl in Hlen. lia. }
  unfold Py.str_int, pretty, pretty_Z. destruct n as [|p|p]; [done|apply Hpos|done].
Qed.

(** C2: when the lookup of the chat that owns a search result raises an
    exception, the label printed after "in" is the decimal form of the
    numeric chat id of the result, which is never empty and does not
    depend on the text of the exception; the exception stops there: the
    search goes on, every result gets its line and the command returns. *)
Theorem search_lookup_fallback `{DateTime} (w : world) (lines : list string)
    (query : string) (limit n : Z) (hash : string) (client : TelegramClient) :
  builds w n hash client ->
  aenter client = Ok tt ->
  aexit client = Ok tt ->
  snd (iter_messages client query limit) = None ->
  (forall m e, m ∈ fst (iter_messages client query limit) ->
     Message.get_chat m = Fails e -> derives_Exception e = true) ->
  fst (run w (Search query limit) lines) = Return tt /\
  stdout (trace (snd (run w (Search query limit) lines))) =
    (fun m => search_line (search_label m) m) <$> fst (iter_messages client query limit) /\
  (forall m e id, m ∈ fst (iter_messages client query limit) ->
     Message.get_chat m = Fails e ->
     Message.chat_id m = Some id ->
     search_line (search_label m) m =
       "[" +:+ isoformat (Message.date m) +:+ "] in " +:+ Py.str_int id +:+ ": " +:+ text_of m /\
     Py.str_int id <> "").
Proof.
  intros Hb Henter Hexit Hstop Hcaught. split; [|split].
  - rewrite (run_search w lines query limit n hash client) by done.
    simpl. by rewrite Hexit, Hstop.
  - by apply stdout_search with n hash.
  - intros m e id _ Hchat Hid. split; [|apply str_int_not_empty].
    unfold search_label. by rewrite Hchat, Hid.
Qed.

Lemma search_lookup_fallback_witness :
  fst (run (Fake.world_of Fake.finder) (Search "line" 20) []) = Return tt /\
  stdout (trace (snd (run (Fake.world_of Fake.finder) (Search "line" 20) []))) =
    [ "[2023-11-14T22:13:20+00:00] in Team: hello";
      "[2023-11-14T22:14:20+00:00] in 42: line1 line2";
      "[2023-11-14T22:15:20+00:00] in None: " ] /\
  search_line (search_label Fake.two_lines) Fake.two_lines =
    "[2023-11-14T22:14:20+00:00] in 42: line1 line2" /\
  Py.str_int 42 <> "".
Proof.
  destruct (search_lookup_fallback (Fake.world_of Fake.finder) [] "line" 20 12345
              "0123abcd" Fake.finder (fake_builds _) eq_refl eq_refl eq_refl)
    as (Hret & Hout & Hline).
  { intros m e Hin Hchat. simpl in Hin.
    apply elem_of_cons in Hin as [-> | Hin]; [discriminate Hchat|].
    apply elem_of_cons in Hin as [-> | Hin]; [by injection Hchat as <-|].
    apply elem_of_cons in Hin as [-> | Hin]; [by injection Hchat as <-|].
    by apply elem_of_nil in Hin. }
  split; [exact Hret|]. split; [exact Hout|].
  assert (Fake.two_lines ∈ fst (iter_messages Fake.finder "line" 20)) as Hin
    by (right; left).
  exact (Hline Fake.two_lines Fake.flood 42 Hin eq_refl eq_refl).
Defined.

(** C10: a conversation whose entity has no title, no username and no
    first name is listed by [dialogs] with the label "None"; a search
    result whose lookup of the chat fails and that has no [chat_id] is
    printed with "None" after "in". *)
Theorem absent_labels_print_None `{DateTime} (w : world) (lines : list string)
    (n : Z) (hash : string) (client : TelegramClient) :
  builds w n hash client ->
  aenter client = Ok tt ->
  (forall limit ds i d,
     get_dialogs client limit = Ok ds ->
     ds !! i = Some d ->
     Dialog.entity d !! "title" = None ->
     Dialog.entity d !! "username" = None ->
     Dialog.entity d !! "first_name" = None ->
     stdout (trace (snd (run w (Dialogs limit) lines))) !! i =
       Some (Py.str_int (Dialog.id d) +:+ String Py.tab "None")) /\
  (forall query limit i m e,
     (forall m' e', m' ∈ fst (iter_messages client query limit) ->
        Message.get_chat m' = Fails e' -> derives_Exception e' = true) ->
     fst (iter_messages client query limit) !! i = Some m ->
     Message.get_chat m = Fails e ->
     Message.chat_id m = None ->
     stdout (trace (snd (run w (Search query limit) lines))) !! i =
       Some ("[" +:+ isoformat (Message.date m) +:+ "] in " +:+ "None" +:+ ": " +:+ text_of m)).
Proof.
  intros Hb Henter. split.
  - intros limit ds i d Hds Hi Htitle Huser Hfirst.
    rewrite (stdout_dialogs w lines limit n hash client ds) by done.
    rewrite list_lookup_fmap, Hi. simpl. f_equal.
    unfold dialogs_line, dialogs_title, Py.getattr.
    by rewrite Htitle, Huser, Hfirst.
  - intros query limit i m e Hcaught Hi Hchat Hid.
    rewrite (stdout_search w lines query limit n hash client) by done.
    rewrite list_lookup_fmap, Hi. simpl. f_equal.
    unfold search_label. by rewrite Hchat, Hid.
Qed.

Lemma absent_labels_print_None_witness :
  stdout (trace (snd (run (Fake.world_of Fake.finder) (Dialogs 30) []))) !! 0%nat =
    Some ("-1001" +:+ String Py.tab "None") /\
  stdout (trace (snd (run (Fake.world_of Fake.finder) (Search "line" 20) []))) !! 2%nat =
    Some "[2023-11-14T22:15:20+00:00] in None: ".
Proof.
  destruct (absent_labels_print_None (Fake.world_of Fake.finder) [] 12345
              "0123abcd" Fake.finder (fake_builds _) eq_refl) as [Hdialogs Hsearch].
  split.
  - apply (Hdialogs 30 [Fake.unnamed] 0%nat Fake.unnamed); reflexivity.
  - apply (Hsearch "line" 20 2%nat Fake.no_body Fake.flood); try reflexivity.
    intros m e Hin Hchat. simpl in Hin.
    apply elem_of_cons in Hin as [-> | Hin]; [discriminate Hchat|].
    apply elem_of_cons in Hin as [-> | Hin]; [by injection Hchat as <-|].
    apply elem_of_cons in Hin as [-> | Hin]; [by injection Hchat as <-|].
    by apply elem_of_nil in Hin.
Defined.

(** ** The test for a second factor *)

Lemma prefix_app (needle rest : string) : String.prefix needle (needle +:+ rest) = true.
Proof.
  induction needle as [|c needle IH]; simpl; [by destruct rest|].
  destruct (ascii_dec c c); [exact IH | done].
Qed.

Lemma prefix_split (needle hay : string) :
  String.prefix needle hay = true -> exists rest, hay = needle +:+ rest.
Proof.
  revert hay. induction needle as [|c needle IH]; intros hay Hp.
  - by exists hay.
  - destruct hay as [|c' hay]; [done|]. simpl in Hp.
    destruct (ascii_dec c c') as [<-|]; [|done].
    destruct (IH hay Hp) as [rest ->]. by exists rest.
Qed.

Lemma contains_split (needle hay : string) :
  Py.contains needle hay = true <->
  exists before after, hay = before +:+ needle +:+ after.
Proof.
  split.
  - induction hay as [|c hay IH]; cbn [Py.contains]; intros Hc.
    + rewrite orb_false_r in Hc. apply prefix_split in Hc as [rest Hrest].
      by exists "", rest.
    + apply orb_true_iff in Hc as [Hc | Hc].
      * apply prefix_split in Hc as [rest Hrest]. by exists "", rest.
      * destruct (IH Hc) as (before & after & ->). by exists (String c before), after.
  - intros (before & after & ->).
    induction before as [|c before IH].
    + change ("" +:+ needle +:+ after) with (needle +:+ after).
      destruct (needle +:+ after) eqn:E; cbn [Py.contains];
        by rewrite <- E, prefix_app.
    + change (String c before +:+ needle +:+ after)
        with (String c (before +:+ needle +:+ after)).
      cbn [Py.contains]. by rewrite IH, orb_true_r.
Qed.

Lemma lower_app (a b : string) : Py.lower (a +:+ b) = Py.lower a +:+ Py.lower b.
Proof. induction a as [|c a IH]; simpl; [done|]. by rewrite IH. Qed.

Lemma lower_split (text a b : string) :
  Py.lower text = a +:+ b ->
  exists text1 text2, text = text1 +:+ text2 /\ Py.lower text1 = a /\ Py.lower text2 = b.
Proof.
  revert text. induction a as [|c a IH]; intros text Hl.
  - by exists "", text.
  - destruct text as [|c' text]; [done|]. simpl in Hl. injection Hl as Hc Hl.
    destruct (IH text Hl) as (t1 & t2 & -> & H1 & H2).
    exists (String c' t1), t2. simpl. by rewrite Hc, H1.
Qed.

(** Lower-casing gives a letter of "password" for that letter and for its
    capital, and for no other character. *)
Lemma lower_char_letter (small c : ascii) :
  occurs small "password" = true ->
  Py.lower_char c = small <-> same_letter small c.
Proof.
  unfold same_letter. intros Hsmall.
  assert (In small ["p"; "a"; "s"; "w"; "o"; "r"; "d"]%char) as Hin.
  { destruct small as [[] [] [] [] [] [] [] []]; try discriminate Hsmall;
      simpl; tauto. }
  simpl in Hin. clear Hsmall.
  repeat (destruct Hin as [<- | Hin]; [
    destruct c as [[] [] [] [] [] [] [] []]; vm_compute;
    (split; [intros Hc; try discriminate Hc; tauto
            | intros [Hc | Hc]; try discriminate Hc; reflexivity]) |]).
  done.
Qed.

Lemma lower_spells (pattern word : string) :
  (forall c, occurs c pattern = true -> occurs c "password" = true) ->
  Py.lower word = pattern <-> spells pattern word.
Proof.
  revert word. induction pattern as [|p pattern IH]; intros [|c word] Hletters;
    try (simpl; split; [discriminate | contradiction]); [done|].
  cbn [Py.lower spells].
  assert (occurs p "password" = true) as Hp
    by (apply Hletters; cbn [occurs]; by rewrite Ascii.eqb_refl).
  assert (forall c', occurs c' pattern = true -> occurs c' "password" = true) as Hrest
    by (intros c' Hc'; apply Hletters; cbn [occurs]; by rewrite Hc', orb_true_r).
  rewrite <- (lower_char_letter p c Hp), <- (IH word Hrest).
  split; [by intros [= -> ->] | by intros [-> ->]].
Qed.

(** The test of the script is the one the words say. *)
Lemma mentions_password_test (text : string) :
  Py.contains "password" (Py.lower text) = true <-> mentions_password text.
Proof.
  rewrite contains_split. unfold mentions_password. split.
  - intros (before & after & Hl).
    apply lower_split in Hl as (t1 & t23 & -> & _ & Hl).
    apply lower_split in Hl as (t2 & t3 & -> & Hw & _).
    exists t1, t2, t3. split; [done|]. by apply lower_spells.
  - intros (before & word & after & -> & Hw).
    apply lower_spells in Hw; [|done].
    exists (Py.lower before), (Py.lower after). by rewrite !lower_app, Hw.
Qed.

(** ** What the commands let through *)

Section Outcomes.
Context `{DateTime}.

Lemma outcome_async_with (client : TelegramClient) (body : M unit) (s : state)
    (r : outcome unit) :
  (aenter client = Ok tt ->
   fst (body (State (stdin s) (trace s ++ [Await Enter]))) = r) ->
  fst (async_with client body s) = scoped_outcome client r.
Proof.
  intros Hbody. unfold scoped_outcome.
  destruct (aenter client) as [[]|e] eqn:Henter.
  - destruct (body (State (stdin s) (trace s ++ [Await Enter]))) as [r' s'] eqn:Hrun.
    rewrite (run_async_with client body s r' s' Henter Hrun). simpl.
    rewrite <- (Hbody eq_refl). by destruct (aexit client).
  - by rewrite (run_async_with_refused client body s e Henter).
Qed.

Lemma outcome_dialogs (w : world) (lines : list string) (limit n : Z) (hash : string)
    (client : TelegramClient) :
  builds w n hash client ->
  fst (run w (Dialogs limit) lines) =
  scoped_outcome client
    match get_dialogs client limit with
    | Ok _ => Return tt
    | Fails e => Raise (ClientError e)
    end.
Proof.
  intros Hb. unfold run, main, cmd_dialogs.
  rewrite run_bind, (run_get_client w n hash client _ Hb).
  apply outcome_async_with. intros _. rewrite run_bind.
  destruct (get_dialogs client limit) as [ds|e] eqn:Hds.
  - rewrite (run_await_ok _ _ ds _ eq_refl). by rewrite run_for_each_print.
  - by rewrite (run_await_fails _ _ e _ eq_refl).
Qed.

Lemma outcome_tail (w : world) (lines : list string) (chat : string) (limit n : Z)
    (hash : string) (client : TelegramClient) :
  builds w n hash client ->
  fst (run w (Tail chat limit) lines) =
  scoped_outcome client
    match get_entity client chat with
    | Ok entity =>
        match get_messages client entity limit with
        | Ok _ => Return tt
        | Fails e => Raise (ClientError e)
        end
    | Fails e => Raise (ClientError e)
    end.
Proof.
  intros Hb. unfold run, main, cmd_tail.
  rewrite run_bind, (run_get_client w n hash client _ Hb).
  apply outcome_async_with. intros _. rewrite run_bind.
  destruct (get_entity client chat) as [entity|e] eqn:Hent.
  - rewrite (run_await_ok _ _ entity _ eq_refl), run_bind.
    destruct (get_messages client entity limit) as [msgs|e] eqn:Hmsgs.
    + rewrite (run_await_ok _ _ msgs _ eq_refl). by rewrite run_for_each_print.
    + by rewrite (run_await_fails _ _ e _ eq_refl).
  - by rewrite (run_await_fails _ _ e _ eq_refl).
Qed.

Lemma lookups_caught_or_escape (ms : list Message.t) :
  (forall m e, m ∈ ms -> Message.get_chat m = Fails e -> derives_Exception e = true) \/
  (exists m e, m ∈ ms /\ lookup_escapes m e).
Proof.
  induction ms as [|m ms [IH | (m' & e' & Hin & Hesc)]].
  - left. intros m e Hin. by apply elem_of_nil in Hin.
  - destruct (Message.get_chat m) as [c|e] eqn:Hchat.
    + left. intros m' e' [-> | Hin]%elem_of_cons; [congruence | by apply IH].
    + destruct (derives_Exception e) eqn:Hbase.
      * left. intros m' e' [-> | Hin]%elem_of_cons; [congruence | by apply IH].
      * right. exists m, e. split; [by left | done].
  - right. exists m', e'. split; [by right | done].
Qed.

Lemma outcome_search (w : world) (lines : list string) (query : string) (limit n : Z)
    (hash : string) (client : TelegramClient) :
  builds w n hash client ->
  exists r,
    fst (run w (Search query limit) lines) = scoped_outcome client r /\
    ((r = Return tt /\ snd (iter_messages client query limit) = None /\
      forall m e, m ∈ fst (iter_messages client query limit) ->
        Message.get_chat m = Fails e -> derives_Exception e = true) \/
     exists e, r = Raise (ClientError e) /\
       (snd (iter_messages client query limit) = Some e \/
        exists m, m ∈ fst (iter_messages client query limit) /\ lookup_escapes m e)).
Proof.
  intros Hb.
  destruct (lookups_caught_or_escape (fst (iter_messages client query limit)))
    as [Hcaught | Hesc].
  - exists (match snd (iter_messages client query limit) with
            | Some e => Raise (ClientError e)
            | None => Return tt
            end). split.
    + unfold run, main, cmd_search.
      rewrite run_bind, (run_get_client w n hash client _ Hb).
      apply outcome_async_with. intros _.
      cbv zeta. rewrite run_bind. unfold emit at 1. cbn [stdin trace].
      rewrite run_bind, run_search_loop by done.
      by destruct (snd (iter_messages client query limit)).
    + destruct (snd (iter_messages client query limit)) as [e|]; [right | by left].
      exists e. split; [done | by left].
  - destruct (run_search_loop_escapes (fst (iter_messages client query limit)) Hesc)
      as (m & e & Hin & Hm & Hrun).
    exists (Raise (ClientError e)). split.
    + unfold run, main, cmd_search.
      rewrite run_bind, (run_get_client w n hash client _ Hb).
      apply outcome_async_with. intros _.
      cbv zeta. rewrite run_bind. unfold emit at 1. cbn [stdin trace].
      rewrite run_bind.
      match goal with
      | |- context [for_each _ _ ?s] => destruct (Hrun s) as [s' ->]
      end.
      reflexivity.
    + right. exists e. split; [done|]. right. by exists m.
Qed.

End Outcomes.

(** C3: in [login], when the first sign-in raises an exception whose text
    has "password" in it, in whatever case, the program asks for the 2FA
    password and signs in again with the line it reads; when the text has
    no "password" in it the exception is raised again and ends the
    command.  In [dialogs], [tail] and [search] an exception of the
    client library is never swallowed, the lookups of the chat in
    [search] apart: when a call raises, the command ends with an
    exception that a call raised. *)
Theorem second_factor_and_propagation `{DateTime} (w : world) (lines : list string)
    (n : Z) (hash : string) (client : TelegramClient) :
  builds w n hash client ->
  (forall number code rest e,
     connect client = Ok tt ->
     is_user_authorized client = Ok false ->
     number <> "" ->
     send_code_request client number = Ok tt ->
     sign_in client number (Py.strip code) = Fails e ->
     (derives_Exception e = true -> mentions_password (error_text e) ->
      forall pwd rest', rest = pwd :: rest' ->
      exists later,
        trace (snd (run w (Login (Some number)) (code :: rest))) =
          [New SESSION_PATH n hash; Await Connect; Await IsUserAuthorized;
           Await (SendCodeRequest number);
           Input "Enter the Telegram login code you received: ";
           Await (SignIn number (Py.strip code));
           Input "Enter your Telegram 2FA password: ";
           Await (SignInPassword pwd)] ++ later) /\
     (~ mentions_password (error_text e) ->
      run w (Login (Some number)) (code :: rest) =
        (Raise (ClientError e),
         State rest
           [New SESSION_PATH n hash; Await Connect; Await IsUserAuthorized;
            Await (SendCodeRequest number);
            Input "Enter the Telegram login code you received: ";
            Await (SignIn number (Py.strip code))]))) /\
  (forall a e,
     (forall phone, a <> Login phone) ->
     uncaught client a e ->
     exists e', uncaught client a e' /\ fst (run w a lines) = Raise (ClientError e')).
Proof.
  intros Hb. split.
  - intros number code rest e Hconnect Hauth Hnumber Hsend Hsign.
    assert (Py.truthy (Some number) = true) as Htruthy by (by destruct number).
    split.
    + intros Hexc Hpwd pwd rest' ->.
      apply mentions_password_test in Hpwd.
      unfold run, main, cmd_login.
      rewrite run_bind, (run_get_client w n hash client _ Hb).
      rewrite run_bind, (run_await_ok _ _ tt _ Hconnect).
      rewrite run_bind, (run_await_ok _ _ false _ Hauth).
      cbn [negb stdin trace app]. rewrite Htruthy. cbn [negb].
      rewrite !run_bind, (run_await_ok _ _ tt _ Hsend). cbn [stdin trace app].
      unfold fmap, M_fmap, input, try_await.
      rewrite !run_bind. unfold emit, read_line. cbn [stdin trace app].
      rewrite Hsign, Hexc, Hpwd. rewrite !run_bind. cbn [stdin trace app].
      unfold await, print, emit, raise. rewrite ?run_bind.
      destruct (sign_in_password client pwd) as [[]|e2]; cbn [stdin trace app snd];
        [|by eexists].
      rewrite ?run_bind.
      destruct (get_me client) as [me|e3]; cbn [stdin trace app snd]; [|by eexists].
      rewrite ?run_bind.
      destruct (disconnect client) as [[]|e4]; cbn [stdin trace app snd]; by eexists.
    + intros Hpwd.
      assert (Py.contains "password" (Py.lower (error_text e)) = false) as Htest.
      { destruct (Py.contains "password" (Py.lower (error_text e))) eqn:Htest; [|done].
        by apply mentions_password_test in Htest. }
      unfold run, main, cmd_login.
      rewrite run_bind, (run_get_client w n hash client _ Hb).
      rewrite run_bind, (run_await_ok _ _ tt _ Hconnect).
      rewrite run_bind, (run_await_ok _ _ false _ Hauth).
      cbn [negb stdin trace app]. rewrite Htruthy. cbn [negb].
      rewrite !run_bind, (run_await_ok _ _ tt _ Hsend). cbn [stdin trace app].
      unfold fmap, M_fmap, input, try_await.
      rewrite !run_bind. unfold emit, read_line. cbn [stdin trace app].
      rewrite Hsign, Htest. by destruct (derives_Exception e).
  - intros a e Hcmd Huncaught.
    destruct a as [phone | limit | chat limit | query limit];
      [by destruct (Hcmd phone) | | |].
    + rewrite (outcome_dialogs w lines limit n hash client Hb).
      unfold uncaught, scoped_outcome in *.
      destruct (aenter client) as [[]|e1]; [|exists e1; by split; [left|]].
      destruct (aexit client) as [[]|e2]; [|exists e2; by split; [right; left|]].
      destruct (get_dialogs client limit) as [ds|e3];
        [|exists e3; by split; [right; right|]].
      by destruct Huncaught as [? | [? | ?]].
    + rewrite (outcome_tail w lines chat limit n hash client Hb).
      unfold uncaught, scoped_outcome in *.
      destruct (aenter client) as [[]|e1]; [|exists e1; by split; [left|]].
      destruct (aexit client) as [[]|e2]; [|exists e2; by split; [right; left|]].
      destruct (get_entity client chat) as [entity|e3];
        [|exists e3; by split; [right; right; left|]].
      destruct (get_messages client entity limit) as [msgs|e4] eqn:Hmsgs.
      * destruct Huncaught as [? | [? | [? | (entity' & [= <-] & Hfail)]]]; try done.
        congruence.
      * exists e4. split; [|done]. right; right; right. by exists entity.
    + destruct (outcome_search w lines query limit n hash client Hb)
        as (r & -> & Hr).
      unfold uncaught, scoped_outcome in *.
      destruct (aenter client) as [[]|e1]; [|exists e1; by split; [left|]].
      destruct (aexit client) as [[]|e2]; [|exists e2; by split; [right; left|]].
      destruct Hr as [(-> & Hstop & Hcaught) | (e3 & -> & He3)].
      * destruct Huncaught as [? | [? | [? | (m & Hin & Hchat & Hbase)]]];
          try done; try congruence.
        rewrite (Hcaught m e Hin Hchat) in Hbase. done.
      * exists e3. split; [|done]. right; right. exact He3.
Qed.

Lemma second_factor_and_propagation_witness :
  (exists later,
     trace (snd (run (Fake.world_of Fake.guarded) (Login (Some "+15551234567"))
                     [" 12345 "; "hunter2"])) =
       [New SESSION_PATH 12345 "0123abcd"; Await Connect; Await IsUserAuthorized;
        Await (SendCodeRequest "+15551234567");
        Input "Enter the Telegram login code you received: ";
        Await (SignIn "+15551234567" (Py.strip " 12345 "));
        Input "Enter your Telegram 2FA password: ";
        Await (SignInPassword "hunter2")] ++ later) /\
  run (Fake.world_of Fake.guarded) (Login (Some "+15551234567")) ["00000"; "hunter2"] =
    (Raise (ClientError (ClientErr true "The phone code entered was invalid")),
     State ["hunter2"]
       [New SESSION_PATH 12345 "0123abcd"; Await Connect; Await IsUserAuthorized;
        Await (SendCodeRequest "+15551234567");
        Input "Enter the Telegram login code you received: ";
        Await (SignIn "+15551234567" (Py.strip "00000"))]) /\
  exists e', uncaught Fake.guarded (Dialogs 30) e' /\
    fst (run (Fake.world_of Fake.guarded) (Dialogs 30) []) = Raise (ClientError e').
Proof.
  destruct (second_factor_and_propagation (Fake.world_of Fake.guarded) [] 12345
              "0123abcd" Fake.guarded (fake_builds _)) as [Hlogin Hothers].
  split; [|split].
  - destruct (Hlogin "+15551234567" " 12345 " ["hunter2"] Fake.password_needed
                eq_refl eq_refl ltac:(discriminate) eq_refl eq_refl) as [Hask _].
    apply (Hask eq_refl) with (rest' := []); [|reflexivity].
    exists "SESSION_", "PASSWORD", "_NEEDED". split; [reflexivity|].
    repeat split; by right.
  - destruct (Hlogin "+15551234567" "00000" ["hunter2"]
                (ClientErr true "The phone code entered was invalid")
                eq_refl eq_refl ltac:(discriminate) eq_refl eq_refl) as [_ Hraise].
    apply Hraise. intros Hm. apply mentions_password_test in Hm. discriminate Hm.
  - apply (Hothers (Dialogs 30) Fake.flood); [discriminate|].
    right. left. reflexivity.
Defined.

(** ** Invariants of the state along a run *)

Section Steps.
Context (R : relation state) `{!PreOrder R}.

Lemma steps_ret {A} (a : A) : steps R (mret a).
Proof. intros s. reflexivity. Qed.

Lemma steps_raise {A} (e : exn) : steps R (@raise A e).
Proof. intros s. reflexivity. Qed.

Lemma steps_bind {A B} (m : M A) (f : A -> M B) :
  steps R m -> (forall a, steps R (f a)) -> steps R (m ≫= f).
Proof.
  intros Hm Hf s. rewrite run_bind. specialize (Hm s).
  destruct (m s) as [[a|e] s1]; simpl in *; [|done].
  etrans; [exact Hm | apply Hf].
Qed.

Lemma steps_fmap {A B} (g : A -> B) (m : M A) : steps R m -> steps R (g <$> m).
Proof.
  intros Hm s. specialize (Hm s). unfold fmap, M_fmap.
  by destruct (m s) as [[a|e] s1].
Qed.

Lemma steps_finally {A} (body : M A) (last : M unit) :
  steps R body -> steps R last -> steps R (finally body last).
Proof.
  intros Hb Hl s. unfold finally. specialize (Hb s).
  destruct (body s) as [r s1]. specialize (Hl s1).
  destruct (last s1) as [[[]|e] s2]; simpl in *; by etrans.
Qed.

Lemma steps_for_each {A} (xs : list A) (body : A -> M unit) :
  (forall x, steps R (body x)) -> steps R (for_each xs body).
Proof.
  intros Hbody. induction xs as [|x xs IH]; [apply steps_ret|].
  apply steps_bind; [apply Hbody | by intros _].
Qed.

(** The primitives, for a relation that allows the event. *)
Variable allows : event -> Prop.
Hypothesis R_emit :
  forall ev s, allows ev -> R s (State (stdin s) (trace s ++ [ev])).

Lemma steps_emit (ev : event) : allows ev -> steps R (emit ev).
Proof. intros Hev s. by apply R_emit. Qed.

Lemma steps_await {A} (c : call) (r : response A) :
  allows (Await c) -> steps R (await c r).
Proof.
  intros Hc. apply steps_bind; [by apply steps_emit|]. intros _.
  destruct r; [apply steps_ret | apply steps_raise].
Qed.

Lemma steps_try_await {A B} (c : call) (r : response A) (f : A -> B)
    (handler : client_error -> M B) :
  allows (Await c) -> (forall e, steps R (handler e)) ->
  steps R (try_await c r f handler).
Proof.
  intros Hc Hh. apply steps_bind; [by apply steps_emit|]. intros _.
  destruct r as [a|e]; [apply steps_ret|].
  destruct (derives_Exception e); [apply Hh | apply steps_raise].
Qed.

Lemma steps_async_with `{DateTime} {A} (client : TelegramClient) (body : M A) :
  allows (Await Enter) -> allows (Await Exit) ->
  steps R body -> steps R (async_with client body).
Proof.
  intros Henter Hexit Hbody. apply steps_bind; [by apply steps_await|].
  intros _. apply steps_finally; [done | by apply steps_await].
Qed.

Lemma steps_get_client `{DateTime} (w : world) :
  (forall n hash, allows (New SESSION_PATH n hash)) -> steps R (get_client w).
Proof.
  intros Hnew. unfold get_client.
  destruct (environ w !! "TG_API_ID") as [id|]; [|apply steps_raise].
  destruct (environ w !! "TG_API_HASH") as [hash|]; [|apply steps_raise].
  destruct (negb _ || negb _); [apply steps_raise|].
  destruct (Py.int id) as [n|]; [|apply steps_raise].
  apply steps_bind; [by apply steps_emit|]. intros _.
  destruct (telethon w SESSION_PATH n hash); [apply steps_ret | apply steps_raise].
Qed.

End Steps.

#[export] Instance grows_by_preorder (P : event -> Prop) : PreOrder (grows_by P).
Proof.
  split.
  - intros s. exists []. by rewrite app_nil_r.
  - intros s1 s2 s3 (tr1 & H1 & HP1) (tr2 & H2 & HP2).
    exists (tr1 ++ tr2). split; [by rewrite H2, H1, app_assoc | by apply Forall_app].
Qed.

#[export] Instance quietly_preorder (P : event -> Prop) : PreOrder (quietly P).
Proof.
  split.
  - intros s. split; [done | reflexivity].
  - intros s1 s2 s3 [Hi1 Hg1] [Hi2 Hg2]. split; [|by etrans].
    unfold keeps_input in *. congruence.
Qed.

Lemma grows_by_emit (P : event -> Prop) (ev : event) (s : state) :
  P ev -> grows_by P s (State (stdin s) (trace s ++ [ev])).
Proof. intros Hev. exists [ev]. split; [done | by constructor]. Qed.

Lemma quietly_emit (P : event -> Prop) (ev : event) (s : state) :
  P ev -> quietly P s (State (stdin s) (trace s ++ [ev])).
Proof. intros Hev. split; [done | by apply grows_by_emit]. Qed.

Lemma grows_by_read_line (P : event -> Prop) : steps (grows_by P) read_line.
Proof.
  intros s. unfold read_line. destruct (stdin s); simpl; [reflexivity|].
  exists []. by rewrite app_nil_r.
Qed.

Section Commands.
Context `{DateTime} (w : world).

(** The three reading commands leave the input alone and only read. *)
Lemma steps_reading (a : args) :
  scoped a -> steps (quietly reads_only) (main w a).
Proof.
  pose proof (quietly_emit reads_only) as Hemit.
  pose proof (fun A B => @steps_bind (quietly reads_only) _ A B) as Hbind.
  pose proof (fun A => @steps_await (quietly reads_only) _ reads_only Hemit A) as Hawait.
  pose proof (@steps_emit (quietly reads_only) reads_only Hemit) as Hprint.
  pose proof (fun A => @steps_for_each (quietly reads_only) _ A) as Hfor.
  pose proof (fun A => @steps_async_with (quietly reads_only) _ reads_only Hemit _ A)
    as Hwith.
  assert (steps (quietly reads_only) (get_client w)) as Hclient
    by (by apply (steps_get_client (quietly reads_only) reads_only Hemit)).
  destruct a as [phone | limit | chat limit | query limit]; [done | | |]; intros _.
  - apply Hbind; [done|]. intros client. apply Hwith; [done..|].
    apply Hbind; [by apply Hawait|]. intros ds.
    apply Hfor. intros d. by apply Hprint.
  - apply Hbind; [done|]. intros client. apply Hwith; [done..|].
    apply Hbind; [by apply Hawait|]. intros entity.
    apply Hbind; [by apply Hawait|]. intros msgs.
    apply Hfor. intros m. by apply Hprint.
  - apply Hbind; [done|]. intros client. apply Hwith; [done..|]. cbv zeta.
    apply Hbind; [by apply Hprint|]. intros _.
    apply Hbind.
    + apply Hfor. intros m. apply Hbind.
      * apply (steps_try_await (quietly reads_only) reads_only Hemit); [done|].
        intros e. apply (steps_ret (quietly reads_only)).
      * intros chat. by apply Hprint.
    + intros _. destruct (snd _);
        [apply (steps_raise (quietly reads_only)) | apply (steps_ret (quietly reads_only))].
Qed.

End Commands.

(** X1: on a session that is authorized, so that entering it succeeds
    and asks nothing, [dialogs], [tail] and [search] only read: they
    leave the interactive input untouched, never prompt, never request a
    code and never sign in; besides building the client and printing
    they only enter and leave the session, list, resolve, fetch, iterate
    and look chats up, however those calls end. *)
Theorem reading_commands_only_read `{DateTime} (w : world) (a : args)
    (lines : list string) (n : Z) (hash : string) (client : TelegramClient) :
  builds w n hash client ->
  aenter client = Ok tt ->
  scoped a ->
  stdin (snd (run w a lines)) = lines /\
  Forall reads_only (trace (snd (run w a lines))).
Proof.
  intros _ _ Ha.
  destruct (steps_reading w a Ha (State lines [])) as [Hin (tr & Htr & Hall)].
  split; [exact Hin|]. unfold run. by rewrite Htr.
Qed.

Lemma reading_commands_only_read_witness :
  stdin (snd (run (Fake.world_of Fake.flooded) (Search "h" 20) ["12345"])) = ["12345"] /\
  Forall reads_only (trace (snd (run (Fake.world_of Fake.flooded) (Search "h" 20) ["12345"]))).
Proof.
  exact (reading_commands_only_read (Fake.world_of Fake.flooded) (Search "h" 20)
           ["12345"] 12345 "0123abcd" Fake.flooded (fake_builds _) eq_refl I).
Defined.

Section Shapes.
Context `{DateTime} (w : world).

(** [get_client] either raises at once or builds the client, which may
    itself fail. *)
Lemma get_client_shape (s : state) :
  (exists e, get_client w s = (Raise e, s)) \/
  (exists n hash r,
     get_client w s = (r, State (stdin s) (trace s ++ [New SESSION_PATH n hash]))).
Proof.
  unfold get_client.
  destruct (environ w !! "TG_API_ID") as [id|]; [|left; by eexists].
  destruct (environ w !! "TG_API_HASH") as [hash|]; [|left; by eexists].
  destruct (negb _ || negb _); [left; by eexists|].
  destruct (Py.int id) as [n|]; [|left; by eexists].
  right. exists n, hash. rewrite run_bind. simpl.
  destruct (telethon w SESSION_PATH n hash); by eexists.
Qed.

(** Once the client is there no command builds another one. *)
Lemma main_continues (a : args) :
  exists k : TelegramClient -> M unit,
    main w a = (get_client w ≫= k) /\ forall c, steps (grows_by not_new) (k c).
Proof.
  pose proof (grows_by_emit not_new) as Hemit.
  pose proof (fun A B => @steps_bind (grows_by not_new) _ A B) as Hbind.
  pose proof (fun A => @steps_await (grows_by not_new) _ not_new Hemit A) as Hawait.
  pose proof (@steps_emit (grows_by not_new) not_new Hemit) as Hprint.
  pose proof (fun A => @steps_for_each (grows_by not_new) _ A) as Hfor.
  pose proof (fun A => @steps_async_with (grows_by not_new) _ not_new Hemit _ A)
    as Hwith.
  pose proof (fun A => @steps_raise (grows_by not_new) _ A) as Hraise.
  pose proof (fun A => @steps_ret (grows_by not_new) _ A) as Hret.
  assert (forall prompt, steps (grows_by not_new) (input prompt)) as Hinput.
  { intros prompt. apply Hbind; [by apply Hprint|]. intros _.
    apply grows_by_read_line. }
  destruct a as [phone | limit | chat limit | query limit];
    eexists; (split; [reflexivity|]); intros client.
  - apply Hbind; [by apply Hawait|]. intros _.
    apply Hbind; [by apply Hawait|]. intros authorized.
    apply Hbind; [|intros _; apply Hbind; [by apply Hawait|]; intros me;
                   apply Hbind; [by apply Hprint | intros _; by apply Hawait]].
    destruct (negb authorized); [|apply Hret].
    destruct phone as [number|]; [|apply Hraise].
    destruct (negb (Py.truthy (Some number))); [apply Hraise|].
    apply Hbind; [by apply Hawait|]. intros _.
    apply Hbind; [by apply (steps_fmap (grows_by not_new))|]. intros code.
    apply (steps_try_await (grows_by not_new) not_new Hemit); [done|]. intros e.
    destruct (Py.contains _ _); [|apply Hraise].
    apply Hbind; [done|]. intros pwd. by apply Hawait.
  - apply Hwith; [done..|].
    apply Hbind; [by apply Hawait|]. intros ds.
    apply Hfor. intros d. by apply Hprint.
  - apply Hwith; [done..|].
    apply Hbind; [by apply Hawait|]. intros entity.
    apply Hbind; [by apply Hawait|]. intros msgs.
    apply Hfor. intros m. by apply Hprint.
  - apply Hwith; [done..|]. cbv zeta.
    apply Hbind; [by apply Hprint|]. intros _.
    apply Hbind.
    + apply Hfor. intros m. apply Hbind.
      * apply (steps_try_await (grows_by not_new) not_new Hemit); [done|].
        intros e. apply Hret.
      * intros chat. by apply Hprint.
    + intros _. destruct (snd _); [apply Hraise | apply Hret].
Qed.

(** A reading command is [async with client] around a body that neither
    enters nor leaves the session. *)
Lemma scoped_shape (a : args) :
  scoped a ->
  exists body : TelegramClient -> M unit,
    main w a = (get_client w ≫= fun client => async_with client (body client)) /\
    forall c, steps (grows_by inside) (body c).
Proof.
  pose proof (grows_by_emit inside) as Hemit.
  pose proof (fun A B => @steps_bind (grows_by inside) _ A B) as Hbind.
  pose proof (fun A => @steps_await (grows_by inside) _ inside Hemit A) as Hawait.
  pose proof (@steps_emit (grows_by inside) inside Hemit) as Hprint.
  pose proof (fun A => @steps_for_each (grows_by inside) _ A) as Hfor.
  pose proof (fun A => @steps_raise (grows_by inside) _ A) as Hraise.
  pose proof (fun A => @steps_ret (grows_by inside) _ A) as Hret.
  destruct a as [phone | limit | chat limit | query limit]; [done | | |]; intros _;
    eexists; (split; [reflexivity|]); intros client; cbv beta.
  - apply Hbind; [by apply Hawait|]. intros ds.
    apply Hfor. intros d. by apply Hprint.
  - apply Hbind; [by apply Hawait|]. intros entity.
    apply Hbind; [by apply Hawait|]. intros msgs.
    apply Hfor. intros m. by apply Hprint.
  - cbv zeta. apply Hbind; [by apply Hprint|]. intros _.
    apply Hbind.
    + apply Hfor. intros m. apply Hbind.
      * apply (steps_try_await (grows_by inside) inside Hemit); [done|].
        intros e. apply Hret.
      * intros chat. by apply Hprint.
    + intros _. destruct (snd _); [apply Hraise | apply Hret].
Qed.

End Shapes.

(** X2: in every run of every command the client handle is built before
    anything else happens and at most once: the trace is empty, or it
    starts with the construction of the client on the fixed session path
    and has no other construction. *)
Theorem client_built_first `{DateTime} (w : world) (a : args) (lines : list string) :
  trace (snd (run w a lines)) = [] \/
  exists n hash rest,
    trace (snd (run w a lines)) = New "/opt/openclaw/secret/telethon" n hash :: rest /\
    Forall not_new rest.
Proof.
  destruct (main_continues w a) as (k & Hmain & Hk). unfold run. rewrite Hmain, run_bind.
  destruct (get_client_shape w (State lines [])) as [[e ->] | (n & hash & r & ->)];
    [by left|].
  right. exists n, hash. cbn [stdin trace]. destruct r as [client|e]; [|by exists []].
  destruct (Hk client (State lines ([] ++ [New SESSION_PATH n hash]))) as (tr & Htr & Hall).
  exists tr. by rewrite Htr.
Qed.

(** X3: a reading command enters the session once, right after the
    client is built; when entering succeeded it leaves the session
    exactly once, as the last thing it does, however the calls in between
    ended; when entering failed nothing more happens. *)
Theorem session_entered_is_left `{DateTime} (w : world) (a : args) (lines : list string)
    (n : Z) (hash : string) (client : TelegramClient) :
  builds w n hash client ->
  scoped a ->
  match aenter client with
  | Ok _ =>
      exists tr,
        trace (snd (run w a lines)) =
          New SESSION_PATH n hash :: Await Enter :: tr ++ [Await Exit] /\
        Forall inside tr
  | Fails _ => trace (snd (run w a lines)) = [New SESSION_PATH n hash; Await Enter]
  end.
Proof.
  intros Hb Ha. destruct (scoped_shape w a Ha) as (body & Hmain & Hbody).
  unfold run. rewrite Hmain, run_bind, (run_get_client w n hash client _ Hb).
  cbn [stdin trace]. destruct (aenter client) as [[]|e] eqn:Henter.
  - destruct (body client (State lines (([] ++ [New SESSION_PATH n hash]) ++ [Await Enter])))
      as [r s'] eqn:Hrun.
    rewrite (run_async_with client (body client)
               (State lines ([] ++ [New SESSION_PATH n hash])) r s' Henter Hrun).
    pose proof (Hbody client (State lines (([] ++ [New SESSION_PATH n hash]) ++ [Await Enter])))
      as (tr & Htr & Hall).
    rewrite Hrun in Htr. simpl in Htr. exists tr. simpl. by rewrite Htr.
  - by rewrite (run_async_with_refused client (body client)
                  (State lines ([] ++ [New SESSION_PATH n hash])) e Henter).
Qed.

Lemma session_entered_is_left_witness :
  exists tr,
    trace (snd (run (Fake.world_of Fake.guarded) (Tail "@ada" 50) [])) =
      New SESSION_PATH 12345 "0123abcd" :: Await Enter :: tr ++ [Await Exit] /\
    Forall inside tr.
Proof.
  exact (session_entered_is_left (Fake.world_of Fake.guarded) (Tail "@ada" 50) []
           12345 "0123abcd" Fake.guarded (fake_builds _) I).
Defined.

(** ** The paths of [login] *)

(** The start of every run of [login] on a client that was built and
    connects, up to the answer about the authorization. *)
Ltac login_starts Hb Hconnect Hauth :=
  unfold run, main, cmd_login;
  rewrite run_bind, (run_get_client _ _ _ _ _ Hb);
  rewrite run_bind, (run_await_ok _ _ tt _ Hconnect);
  rewrite run_bind, (run_await_ok _ _ _ _ Hauth);
  cbn [negb stdin trace app].

(** Then, with a phone number, the code is requested and read. *)
Ltac login_asks_code Hsend :=
  rewrite !run_bind, (run_await_ok _ _ tt _ Hsend); cbn [stdin trace app];
  unfold fmap, M_fmap, input, try_await;
  rewrite !run_bind; unfold emit, read_line; cbn [stdin trace app].

(** X4: on a session that is already authorized [login] asks nothing:
    whatever [--phone] is and whatever could be typed, it requests no
    code and reads no input, prints the identity of the account (the id,
    then "@" and the username, "None" when there is none) and
    disconnects. *)
Theorem login_when_authorized `{DateTime} (w : world) (phone : option string)
    (lines : list string) (n : Z) (hash : string) (client : TelegramClient)
    (me : User.t) :
  builds w n hash client ->
  connect client = Ok tt ->
  is_user_authorized client = Ok true ->
  get_me client = Ok me ->
  run w (Login phone) lines =
    (match disconnect client with
     | Ok _ => Return tt
     | Fails e => Raise (ClientError e)
     end,
     State lines
       [New SESSION_PATH n hash; Await Connect; Await IsUserAuthorized; Await GetMe;
        Print ("Logged in as: " +:+ Py.str_int (User.id me) +:+ " @" +:+
               Py.str (User.username me));
        Await Disconnect]).
Proof.
  intros Hb Hconnect Hauth Hme. login_starts Hb Hconnect Hauth.
  rewrite run_bind. unfold mret at 1, M_ret at 1.
  rewrite run_bind, (run_await_ok _ _ me _ Hme).
  rewrite run_bind. unfold print, emit at 1. cbn [stdin trace app].
  unfold await, emit, raise. rewrite run_bind.
  by destruct (disconnect client) as [[]|e].
Qed.

Lemma login_when_authorized_witness :
  run (Fake.world_of Fake.idle) (Login None) ["typed"] =
    (Return tt,
     State ["typed"]
       [New SESSION_PATH 12345 "0123abcd"; Await Connect; Await IsUserAuthorized;
        Await GetMe; Print "Logged in as: 7 @ada"; Await Disconnect]).
Proof.
  exact (login_when_authorized (Fake.world_of Fake.idle) None ["typed"] 12345
           "0123abcd" Fake.idle (User.Build 7 (Some "ada")) (fake_builds _)
           eq_refl eq_refl eq_refl).
Defined.

(** X5: a first login without a second factor: the code is requested for
    the phone number, one line is read and stripped of surrounding
    whitespace, the sign-in is made once with it, then the identity is
    printed and the session is disconnected; the rest of the input is
    not read. *)
Theorem login_first_time `{DateTime} (w : world) (number code : string)
    (rest : list string) (n : Z) (hash : string) (client : TelegramClient)
    (me : User.t) :
  builds w n hash client ->
  connect client = Ok tt ->
  is_user_authorized client = Ok false ->
  number <> "" ->
  send_code_request client number = Ok tt ->
  sign_in client number (Py.strip code) = Ok tt ->
  get_me client = Ok me ->
  disconnect client = Ok tt ->
  run w (Login (Some number)) (code :: rest) =
    (Return tt,
     State rest
       [New SESSION_PATH n hash; Await Connect; Await IsUserAuthorized;
        Await (SendCodeRequest number);
        Input "Enter the Telegram login code you received: ";
        Await (SignIn number (Py.strip code)); Await GetMe;
        Print ("Logged in as: " +:+ Py.str_int (User.id me) +:+ " @" +:+
               Py.str (User.username me));
        Await Disconnect]).
Proof.
  intros Hb Hconnect Hauth Hnumber Hsend Hsign Hme Hdis.
  assert (Py.truthy (Some number) = true) as Htruthy by (by destruct number).
  login_starts Hb Hconnect Hauth. rewrite Htruthy. cbn [negb].
  login_asks_code Hsend.
  rewrite Hsign, run_bind. unfold mret at 1, M_ret at 1. cbn [stdin trace app].
  rewrite run_bind, (run_await_ok _ _ me _ Hme).
  rewrite run_bind. unfold print, emit at 1. cbn [stdin trace app].
  by rewrite (run_await_ok _ _ tt _ Hdis).
Qed.

Lemma login_first_time_witness :
  run (Fake.world_of Fake.fresh) (Login (Some "+15551234567")) [" 12345 "; "more"] =
    (Return tt,
     State ["more"]
       [New SESSION_PATH 12345 "0123abcd"; Await Connect; Await IsUserAuthorized;
        Await (SendCodeRequest "+15551234567");
        Input "Enter the Telegram login code you received: ";
        Await (SignIn "+15551234567" "12345"); Await GetMe;
        Print "Logged in as: 7 @ada"; Await Disconnect]).
Proof.
  exact (login_first_time (Fake.world_of Fake.fresh) "+15551234567" " 12345 " ["more"]
           12345 "0123abcd" Fake.fresh (User.Build 7 (Some "ada")) (fake_builds _)
           eq_refl eq_refl ltac:(discriminate) eq_refl eq_refl eq_refl eq_refl).
Defined.

(** X6: the sign-in with the 2FA password is tried once.  When it raises,
    whatever its text, the command ends with that exception: there is no
    second prompt, the identity is not fetched and the session is not
    disconnected.  The password is passed as typed, not stripped. *)
Theorem login_password_once `{DateTime} (w : world) (number code pwd : string)
    (rest : list string) (n : Z) (hash : string) (client : TelegramClient)
    (e e2 : client_error) :
  builds w n hash client ->
  connect client = Ok tt ->
  is_user_authorized client = Ok false ->
  number <> "" ->
  send_code_request client number = Ok tt ->
  sign_in client number (Py.strip code) = Fails e ->
  derives_Exception e = true ->
  mentions_password (error_text e) ->
  sign_in_password client pwd = Fails e2 ->
  run w (Login (Some number)) (code :: pwd :: rest) =
    (Raise (ClientError e2),
     State rest
       [New SESSION_PATH n hash; Await Connect; Await IsUserAuthorized;
        Await (SendCodeRequest number);
        Input "Enter the Telegram login code you received: ";
        Await (SignIn number (Py.strip code));
        Input "Enter your Telegram 2FA password: ";
        Await (SignInPassword pwd)]).
Proof.
  intros Hb Hconnect Hauth Hnumber Hsend Hsign Hexc Hpwd Hsecond.
  apply mentions_password_test in Hpwd.
  assert (Py.truthy (Some number) = true) as Htruthy by (by destruct number).
  login_starts Hb Hconnect Hauth. rewrite Htruthy. cbn [negb].
  login_asks_code Hsend.
  rewrite Hsign, Hexc, Hpwd. rewrite !run_bind. cbn [stdin trace app].
  by rewrite (run_await_fails _ _ e2 _ Hsecond).
Qed.

Lemma login_password_once_witness :
  run (Fake.world_of Fake.locked) (Login (Some "+15551234567"))
      ["12345"; " hunter2 "; "hunter2"] =
    (Raise (ClientError (ClientErr true "The password (and thus its hash value) you entered is invalid")),
     State ["hunter2"]
       [New SESSION_PATH 12345 "0123abcd"; Await Connect; Await IsUserAuthorized;
        Await (SendCodeRequest "+15551234567");
        Input "Enter the Telegram login code you received: ";
        Await (SignIn "+15551234567" (Py.strip "12345"));
        Input "Enter your Telegram 2FA password: ";
        Await (SignInPassword " hunter2 ")]).
Proof.
  apply (login_password_once (Fake.world_of Fake.locked) "+15551234567" "12345"
           " hunter2 " ["hunter2"] 12345 "0123abcd" Fake.locked Fake.two_factor
           (ClientErr true "The password (and thus its hash value) you entered is invalid")
           (fake_builds _) eq_refl eq_refl ltac:(discriminate) eq_refl eq_refl eq_refl);
    [|reflexivity].
  apply mentions_password_test. reflexivity.
Defined.

(** X7: an empty [--phone] counts as none: on a session that is not
    authorized the command ends with the usage error, and no code is
    requested for the empty number. *)
Theorem login_empty_phone `{DateTime} (w : world) (lines : list string)
    (n : Z) (hash : string) (client : TelegramClient) :
  builds w n hash client ->
  connect client = Ok tt ->
  is_user_authorized client = Ok false ->
  run w (Login (Some "")) lines =
    (Raise (SystemExit "First-time login requires --phone +<countrycode><number>"),
     State lines [New SESSION_PATH n hash; Await Connect; Await IsUserAuthorized]).
Proof.
  intros Hb Hconnect Hauth. login_starts Hb Hconnect Hauth. reflexivity.
Qed.

Lemma login_empty_phone_witness :
  run (Fake.world_of Fake.fresh) (Login (Some "")) ["12345"] =
    (Raise (SystemExit "First-time login requires --phone +<countrycode><number>"),
     State ["12345"]
       [New SESSION_PATH 12345 "0123abcd"; Await Connect; Await IsUserAuthorized]).
Proof.
  exact (login_empty_phone (Fake.world_of Fake.fresh) ["12345"] 12345 "0123abcd"
           Fake.fresh (fake_builds _) eq_refl eq_refl).
Defined.

(** X8: when there is nothing to read at the prompt for the code, the
    command ends with [EOFError]; by then the code was already requested
    from the service, and no sign-in is attempted. *)
Theorem login_without_input `{DateTime} (w : world) (number : string)
    (n : Z) (hash : string) (client : TelegramClient) :
  builds w n hash client ->
  connect client = Ok tt ->
  is_user_authorized client = Ok false ->
  number <> "" ->
  send_code_request client number = Ok tt ->
  run w (Login (Some number)) [] =
    (Raise EOFError,
     State []
       [New SESSION_PATH n hash; Await Connect; Await IsUserAuthorized;
        Await (SendCodeRequest number);
        Input "Enter the Telegram login code you received: "]).
Proof.
  intros Hb Hconnect Hauth Hnumber Hsend.
  assert (Py.truthy (Some number) = true) as Htruthy by (by destruct number).
  login_starts Hb Hconnect Hauth. rewrite Htruthy. cbn [negb].
  login_asks_code Hsend. reflexivity.
Qed.

Lemma login_without_input_witness :
  run (Fake.world_of Fake.fresh) (Login (Some "+15551234567")) [] =
    (Raise EOFError,
     State []
       [New SESSION_PATH 12345 "0123abcd"; Await Connect; Await IsUserAuthorized;
        Await (SendCodeRequest "+15551234567");
        Input "Enter the Telegram login code you received: "]).
Proof.
  exact (login_without_input (Fake.world_of Fake.fresh) "+15551234567" 12345
           "0123abcd" Fake.fresh (fake_builds _) eq_refl eq_refl
           ltac:(discriminate) eq_refl).
Defined.

(** X9: what the sign-in raises outside [Exception] (a cancellation, an
    interrupt) is not caught by [login], even when its text has
    "password" in it: it ends the command without a prompt for the
    password. *)
Theorem login_lets_base_exceptions_through `{DateTime} (w : world)
    (number code : string) (rest : list string) (n : Z) (hash : string)
    (client : TelegramClient) (e : client_error) :
  builds w n hash client ->
  connect client = Ok tt ->
  is_user_authorized client = Ok false ->
  number <> "" ->
  send_code_request client number = Ok tt ->
  sign_in client number (Py.strip code) = Fails e ->
  derives_Exception e = false ->
  run w (Login (Some number)) (code :: rest) =
    (Raise (ClientError e),
     State rest
       [New SESSION_PATH n hash; Await Connect; Await IsUserAuthorized;
        Await (SendCodeRequest number);
        Input "Enter the Telegram login code you received: ";
        Await (SignIn number (Py.strip code))]).
Proof.
  intros Hb Hconnect Hauth Hnumber Hsend Hsign Hbase.
  assert (Py.truthy (Some number) = true) as Htruthy by (by destruct number).
  login_starts Hb Hconnect Hauth. rewrite Htruthy. cbn [negb].
  login_asks_code Hsend. by rewrite Hsign, Hbase.
Qed.

Lemma login_lets_base_exceptions_through_witness :
  run (Fake.world_of Fake.interrupted) (Login (Some "+15551234567")) ["12345"; "hunter2"] =
    (Raise (ClientError (ClientErr false "cancelled while the password was checked")),
     State ["hunter2"]
       [New SESSION_PATH 12345 "0123abcd"; Await Connect; Await IsUserAuthorized;
        Await (SendCodeRequest "+15551234567");
        Input "Enter the Telegram login code you received: ";
        Await (SignIn "+15551234567" (Py.strip "12345"))]).
Proof.
  exact (login_lets_base_exceptions_through (Fake.world_of Fake.interrupted)
           "+15551234567" "12345" ["hunter2"] 12345 "0123abcd" Fake.interrupted
           (ClientErr false "cancelled while the password was checked")
           (fake_builds _) eq_refl eq_refl ltac:(discriminate) eq_refl eq_refl eq_refl).
Defined.

(** X10: when the constructor of the client raises, every command ends
    with that exception right there: nothing is awaited, asked or
    printed. *)
Theorem constructor_failure_propagates `{DateTime} (w : world) (a : args)
    (lines : list string) (id hash : string) (n : Z) (e : client_error) :
  environ w !! "TG_API_ID" = Some id ->
  Py.int id = Some n ->
  environ w !! "TG_API_HASH" = Some hash ->
  hash <> "" ->
  telethon w SESSION_PATH n hash = Fails e ->
  run w a lines = (Raise (ClientError e), State lines [New SESSION_PATH n hash]).
Proof.
  intros Hid Hint Hhash Hne Hnew. unfold run. apply main_stops.
  unfold get_client. rewrite Hid, Hhash.
  destruct id as [|c id]; [by rewrite int_empty in Hint|].
  destruct hash as [|c' hash]; [done|]. simpl.
  rewrite Hint, run_bind. simpl. by rewrite Hnew.
Qed.

Lemma constructor_failure_propagates_witness :
  run Fake.refusing (Dialogs 30) ["typed"] =
    (Raise (ClientError (ClientErr true "Your API ID or Hash cannot be empty or None")),
     State ["typed"] [New SESSION_PATH 0 "0123abcd"]).
Proof.
  exact (constructor_failure_propagates Fake.refusing (Dialogs 30) ["typed"]
           "0" "0123abcd" 0
           (ClientErr true "Your API ID or Hash cannot be empty or None")
           eq_refl eq_refl eq_refl ltac:(discriminate) eq_refl).
Defined.

(** ** More on what is printed *)

(** X11: the results that [search] received before its iterator raised
    are not lost: each of them has its line printed, in the order they
    were yielded, and then the exception ends the command. *)
Theorem search_prints_before_failure `{DateTime} (w : world) (lines : list string)
    (query : string) (limit n : Z) (hash : string) (client : TelegramClient)
    (e : client_error) :
  builds w n hash client ->
  aenter client = Ok tt ->
  aexit client = Ok tt ->
  snd (iter_messages client query limit) = Some e ->
  (forall m e', m ∈ fst (iter_messages client query limit) ->
     Message.get_chat m = Fails e' -> derives_Exception e' = true) ->
  fst (run w (Search query limit) lines) = Raise (ClientError e) /\
  stdout (trace (snd (run w (Search query limit) lines))) =
    (fun m => search_line (search_label m) m) <$> fst (iter_messages client query limit).
Proof.
  intros Hb Henter Hexit Hraise Hcaught. split.
  - rewrite (run_search w lines query limit n hash client) by done.
    simpl. by rewrite Hexit, Hraise.
  - by apply stdout_search with n hash.
Qed.

Lemma search_prints_before_failure_witness :
  fst (run (Fake.world_of Fake.flooded) (Search "h" 20) []) =
    Raise (ClientError Fake.flood) /\
  stdout (trace (snd (run (Fake.world_of Fake.flooded) (Search "h" 20) []))) =
    [ "[2023-11-14T22:13:20+00:00] in Team: hello";
      "[2023-11-14T22:16:20+00:00] in None: hi" ].
Proof.
  refine (search_prints_before_failure (Fake.world_of Fake.flooded) [] "h" 20 12345
            "0123abcd" Fake.flooded Fake.flood (fake_builds _) eq_refl eq_refl eq_refl _).
  intros m e' Hin Hchat. simpl in Hin.
  apply elem_of_cons in Hin as [-> | Hin]; [discriminate Hchat|].
  apply elem_of_cons in Hin as [-> | Hin]; [discriminate Hchat|].
  by apply elem_of_nil in Hin.
Defined.

(** X12: the numeric chat id is a fallback for a lookup that raises
    only.  When the lookup returns a chat that has no title, no username
    and no first name, the label printed after "in" is "None", whatever
    the chat id of the result is. *)
Theorem search_nameless_chat `{DateTime} (w : world) (lines : list string)
    (query : string) (limit n : Z) (hash : string) (client : TelegramClient)
    (i : nat) (m : Message.t) (c : object) :
  builds w n hash client ->
  aenter client = Ok tt ->
  (forall m' e', m' ∈ fst (iter_messages client query limit) ->
     Message.get_chat m' = Fails e' -> derives_Exception e' = true) ->
  fst (iter_messages client query limit) !! i = Some m ->
  Message.get_chat m = Ok c ->
  c !! "title" = None -> c !! "username" = None -> c !! "first_name" = None ->
  stdout (trace (snd (run w (Search query limit) lines))) !! i =
    Some ("[" +:+ isoformat (Message.date m) +:+ "] in " +:+ "None" +:+ ": " +:+ text_of m).
Proof.
  intros Hb Henter Hcaught Hi Hchat Htitle Huser Hfirst.
  rewrite (stdout_search w lines query limit n hash client) by done.
  rewrite list_lookup_fmap, Hi. simpl. f_equal.
  unfold search_label, search_chat, Py.getattr.
  by rewrite Hchat, Htitle, Huser, Hfirst.
Qed.

Lemma search_nameless_chat_witness :
  stdout (trace (snd (run (Fake.world_of Fake.flooded) (Search "h" 20) []))) !! 1%nat =
    Some "[2023-11-14T22:16:20+00:00] in None: hi".
Proof.
  refine (search_nameless_chat (Fake.world_of Fake.flooded) [] "h" 20 12345
            "0123abcd" Fake.flooded 1%nat Fake.nameless ∅ (fake_builds _) eq_refl _
            eq_refl eq_refl eq_refl eq_refl eq_refl).
  intros m e' Hin Hchat. simpl in Hin.
  apply elem_of_cons in Hin as [-> | Hin]; [discriminate Hchat|].
  apply elem_of_cons in Hin as [-> | Hin]; [discriminate Hchat|].
  by apply elem_of_nil in Hin.
Defined.

(** X13: when neither the title nor the username of a conversation holds
    a non-empty string, [dialogs] prints its first name as it is: "None"
    when there is none, and nothing after the tab when it is the empty
    string. *)
Theorem dialogs_falls_back_to_first_name `{DateTime} (w : world) (lines : list string)
    (limit n : Z) (hash : string) (client : TelegramClient) (ds : list Dialog.t)
    (i : nat) (d : Dialog.t) :
  builds w n hash client ->
  aenter client = Ok tt ->
  get_dialogs client limit = Ok ds ->
  ds !! i = Some d ->
  first_non_empty [Dialog.entity d !! "title"; Dialog.entity d !! "username"] = None ->
  stdout (trace (snd (run w (Dialogs limit) lines))) !! i =
    Some (Py.str_int (Dialog.id d) +:+
          String Py.tab (Py.str (Dialog.entity d !! "first_name"))).
Proof.
  intros Hb Henter Hds Hi Hnone.
  rewrite (stdout_dialogs w lines limit n hash client ds) by done.
  rewrite list_lookup_fmap, Hi. simpl.
  assert (dialogs_title (Dialog.entity d) = Dialog.entity d !! "first_name") as Hlabel.
  { unfold dialogs_title, Py.getattr, Py.or, Py.truthy. simpl in Hnone.
    destruct (Dialog.entity d !! "title") as [[|c t]|];
      destruct (Dialog.entity d !! "username") as [[|c' u]|]; simpl in *; congruence. }
  unfold dialogs_line. by rewrite Hlabel.
Qed.

Lemma dialogs_falls_back_to_first_name_witness :
  stdout (trace (snd (run (Fake.world_of Fake.flooded) (Dialogs 30) []))) !! 0%nat =
    Some ("5" +:+ String Py.tab "").
Proof.
  exact (dialogs_falls_back_to_first_name (Fake.world_of Fake.flooded) [] 30 12345
           "0123abcd" Fake.flooded
           [Dialog.Build 5 {[ "title" := ""; "first_name" := "" ]}] 0%nat
           (Dialog.Build 5 {[ "title" := ""; "first_name" := "" ]})
           (fake_builds _) eq_refl eq_refl eq_refl eq_refl).
Defined.

Lemma newlines_to_spaces_clean (body : string) :
  occurs Py.nl (newlines_to_spaces body) = false.
Proof.
  induction body as [|c body IH]; [done|]. simpl. rewrite IH, orb_false_r.
  destruct (Ascii.eqb_spec c Py.nl) as [->|Hne]; [done|].
  by apply Ascii.eqb_neq.
Qed.

(** X14: the body of a message never breaks a line: the text printed by
    [tail] and [search] has no newline in it, so a line of [tail] holds
    one when the date does, and a line of [search] when the date or the
    label of the chat does. *)
Theorem body_never_breaks_line `{DateTime} (m : Message.t) (label : option string) :
  occurs Py.nl (text_of m) = false /\
  occurs Py.nl (tail_line m) = occurs Py.nl (isoformat (Message.date m)) /\
  occurs Py.nl (search_line label m) =
    occurs Py.nl (isoformat (Message.date m)) || occurs Py.nl (Py.str label).
Proof.
  assert (occurs Py.nl (text_of m) = false) as Htext
    by (rewrite text_of_spaces; apply newlines_to_spaces_clean).
  split; [exact Htext|]. unfold tail_line, search_line. cbv zeta.
  rewrite !occurs_app, Htext. simpl. rewrite !orb_false_r. done.
Qed.

(** ** Reading the identifier *)

Lemma pretty_N_char_digit (d : N) :
  (d < 10)%N ->
  Py.is_digit (pretty_N_char d) = true /\
  Py.digit_value (pretty_N_char d) = Z.of_N d /\
  Py.is_blank (pretty_N_char d) = false.
Proof.
  intros Hd.
  assert (d = 0 \/ d = 1 \/ d = 2 \/ d = 3 \/ d = 4 \/ d = 5 \/ d = 6 \/ d = 7 \/
          d = 8 \/ d = 9)%N as Hcases by lia.
  repeat (destruct Hcases as [-> | Hcases]; [by vm_compute|]).
  subst d. by vm_compute.
Qed.

(** Reading the decimal digits of [x] adds [x] behind what was read;
    there are as many of them as [x] needs. *)
Lemma digits_pretty_N_go (x : N) :
  (0 < x)%N ->
  exists k : Z, 0 < k /\ 10 ^ (k - 1) <= Z.of_N x /\ forall s,
    Z.of_N (Py.digit_count (pretty_N_go x s)) = k + Z.of_N (Py.digit_count s) /\
    forall acc b,
      Py.digits acc b (pretty_N_go x s) = Py.digits (acc * 10 ^ k + Z.of_N x) true s.
Proof.
  induction (N.lt_wf_0 x) as [x _ IH]. intros Hx.
  destruct (pretty_N_char_digit (x `mod` 10)%N) as (Hdigit & Hvalue & _);
    [by apply N.mod_lt|].
  pose proof (N.div_mod x 10 ltac:(done)) as Hdm.
  destruct (decide (x `div` 10 = 0)%N) as [Hzero | Hpos].
  - exists 1. split; [done|]. split; [change (10 ^ (1 - 1)) with 1; lia|]. intros s.
    rewrite pretty_N_go_step, Hzero, pretty_N_go_0 by done.
    cbn [Py.digits Py.digit_count]. rewrite Hdigit, Hvalue. split; [lia|].
    intros acc b. f_equal. rewrite Hzero in Hdm. rewrite Z.pow_1_r. clear -Hdm. lia.
  - destruct (IH (x `div` 10)%N) as (k & Hk & Hlow & Hread);
      [apply N.div_lt; lia | by apply N.neq_0_lt_0 |].
    exists (k + 1). split; [lia|]. split.
    { replace (k + 1 - 1) with (k - 1 + 1) by lia.
      rewrite Z.pow_add_r, Z.pow_1_r by lia.
      pose proof (N2Z.is_nonneg (x `mod` 10)) as Hr.
      assert (Z.of_N x = 10 * Z.of_N (x `div` 10) + Z.of_N (x `mod` 10)) as HdmZ
        by (rewrite Hdm at 1; by rewrite N2Z.inj_add, N2Z.inj_mul).
      remember (Z.of_N (x `div` 10)) as q. remember (Z.of_N (x `mod` 10)) as r.
      remember (Z.of_N x) as X. clear -HdmZ Hr Hlow. lia. }
    intros s. rewrite pretty_N_go_step by done.
    destruct (Hread (String (pretty_N_char (x `mod` 10)) s)) as [Hcount Hdigits].
    rewrite Hcount. cbn [Py.digits Py.digit_count]. rewrite Hdigit. split; [lia|].
    intros acc b. rewrite Hdigits. cbn [Py.digits]. rewrite Hdigit, Hvalue. f_equal.
    rewrite Z.pow_add_r, Z.pow_1_r by lia. clear -Hdm. lia.
Qed.

Lemma occurs_pretty_N_go (c : ascii) (x : N) (s : string) :
  Py.is_blank c = true -> occurs c s = false -> occurs c (pretty_N_go x s) = false.
Proof.
  intros Hc. revert s. induction (N.lt_wf_0 x) as [x _ IH]. intros s Hs.
  destruct (decide (x = 0)%N) as [-> | Hx]; [by rewrite pretty_N_go_0|].
  rewrite pretty_N_go_step by lia. apply IH; [apply N.div_lt; lia|].
  cbn [occurs]. rewrite Hs, orb_false_r.
  destruct (pretty_N_char_digit (x `mod` 10)%N) as (_ & _ & Hblank);
    [by apply N.mod_lt|].
  destruct (Ascii.eqb_spec (pretty_N_char (x `mod` 10)) c) as [<-|]; [|done].
  congruence.
Qed.

(** Nothing is skipped in a string without a blank. *)
Lemma blanks_clean (s : string) :
  (forall c, occurs c s = true -> Py.is_blank c = false) ->
  Py.drop_blanks_at_end (Py.skip_blanks s) = s.
Proof.
  intros Hclean.
  assert (Py.skip_blanks s = s) as ->; [|by apply drop_blanks_at_end_clean].
  destruct s as [|c s]; [done|]. simpl.
  rewrite (Hclean c); [done|]. cbn [occurs]. by rewrite Ascii.eqb_refl.
Qed.

Lemma literal_unsigned (body : string) (v : Z) :
  (forall c, occurs c body = true -> Py.is_blank c = false) ->
  Py.digits 0 false body = Some v -> Py.literal body = Some v.
Proof.
  intros Hclean Hread. unfold Py.literal. rewrite blanks_clean by done.
  destruct body as [|c rest]; [done|]. cbn [Py.digits] in Hread.
  destruct (Py.is_digit c) eqn:Hdigit.
  - destruct c as [[] [] [] [] [] [] [] []]; try done; by cbn [Py.digits]; rewrite Hdigit.
  - by rewrite andb_false_r in Hread.
Qed.

(** [int(str(n))] is [n], for an [n] of at most 4300 digits. *)
Lemma int_str_int (n : Z) : Z.abs n < 10 ^ 4300 -> Py.int (Py.str_int n) = Some n.
Proof.
  intros Hsmall.
  assert (forall p : positive,
            Z.pos p < 10 ^ 4300 ->
            (forall c, occurs c (pretty_N_go (N.pos p) "") = true -> Py.is_blank c = false) /\
            Py.digits 0 false (pretty_N_go (N.pos p) "") = Some (Z.pos p) /\
            (Py.digit_count (pretty_N_go (N.pos p) "") <= Py.max_str_digits)%N) as Hpos.
  { intros p Hp. split; [|split].
    - intros c Hc. destruct (Py.is_blank c) eqn:Hblank; [|done].
      by rewrite (occurs_pretty_N_go c (N.pos p) "" Hblank eq_refl) in Hc.
    - destruct (digits_pretty_N_go (N.pos p)) as (k & _ & _ & Hread); [done|].
      destruct (Hread "") as [_ Hdigits]. by rewrite Hdigits.
    - destruct (digits_pretty_N_go (N.pos p)) as (k & Hk & Hlow & Hread); [done|].
      destruct (Hread "") as [Hcount _]. cbn [Py.digit_count] in Hcount.
      assert (k - 1 < 4300) as Hlt.
      { apply (Z.pow_lt_mono_r_iff 10); [lia | lia |].
        change (Z.of_N (N.pos p)) with (Z.pos p) in Hlow. lia. }
      unfold Py.max_str_digits. lia. }
  unfold Py.str_int, Py.int. destruct n as [|p|p]; [done| |].
  - change (pretty (Z.pos p)) with (pretty_N_go (N.pos p) "").
    destruct (Hpos p Hsmall) as (Hclean & Hread & Hcount).
    rewrite (literal_unsigned _ _ Hclean Hread).
    by destruct (N.ltb_spec Py.max_str_digits (Py.digit_count (pretty_N_go (N.pos p) "")));
      [lia|].
  - change (pretty (Z.neg p)) with (String "-" (pretty_N_go (N.pos p) "")).
    destruct (Hpos p Hsmall) as (Hclean & Hread & Hcount).
    assert (Py.literal (String "-" (pretty_N_go (N.pos p) "")) = Some (Z.neg p)) as ->.
    { unfold Py.literal. rewrite blanks_clean.
      - cbv iota beta. by rewrite Hread.
      - intros c. cbn [occurs]. intros [Hc | Hc]%orb_true_iff; [|by apply Hclean].
        by apply Ascii.eqb_eq in Hc as <-. }
    cbn [Py.digit_count].
    assert (Py.is_digit "-" = false) as -> by done.
    by destruct (N.ltb_spec Py.max_str_digits (0 + Py.digit_count (pretty_N_go (N.pos p) "")));
      [lia|].
Qed.

(** X15: an identifier written in decimal is read back as the integer it
    denotes: with TG_API_ID set to the decimal form of [n], negative or
    not and of at most 4300 digits, and a non-empty TG_API_HASH,
    [get_client] builds the client with exactly [n] and that hash on the
    fixed session path. *)
Theorem decimal_api_id_is_read_back `{DateTime} (w : world) (n : Z) (hash : string)
    (client : TelegramClient) (s : state) :
  Z.abs n < 10 ^ 4300 ->
  environ w !! "TG_API_ID" = Some (Py.str_int n) ->
  environ w !! "TG_API_HASH" = Some hash ->
  hash <> "" ->
  telethon w "/opt/openclaw/secret/telethon" n hash = Ok client ->
  get_client w s =
    (Return client,
     State (stdin s) (trace s ++ [New "/opt/openclaw/secret/telethon" n hash])).
Proof.
  intros Hsmall Hid Hhash Hne Hnew. apply run_get_client.
  exists (Py.str_int n). by rewrite int_str_int.
Qed.

Lemma decimal_api_id_is_read_back_witness :
  get_client (Fake.world_in (Fake.env "-42" "0123abcd") Fake.idle) (State ["typed"] []) =
    (Return Fake.idle,
     State ["typed"] [New "/opt/openclaw/secret/telethon" (-42) "0123abcd"]).
Proof.
  refine (decimal_api_id_is_read_back (Fake.world_in (Fake.env "-42" "0123abcd") Fake.idle)
            (-42) "0123abcd" Fake.idle (State ["typed"] []) _
            eq_refl eq_refl ltac:(discriminate) eq_refl).
  vm_compute. reflexivity.
Defined.

(** ** Where [login] disconnects *)

Section Disconnecting.
Context `{DateTime}.

Lemma stays_or_leaves_bind {A B} (m : M A) (f : A -> M B) :
  steps (grows_by connected) m -> (forall a, stays_or_leaves (f a)) ->
  stays_or_leaves (m ≫= f).
Proof.
  intros Hm Hf s. rewrite run_bind. specialize (Hm s).
  destruct (m s) as [[a|e] s1]; simpl in *; [|by left].
  destruct Hm as (tr1 & Htr1 & Hall1).
  destruct (Hf a s1) as [(tr2 & Htr2 & Hall2) | (before & line & Htr2 & Hall2)].
  - left. exists (tr1 ++ tr2). split; [by rewrite Htr2, Htr1, app_assoc|].
    by apply Forall_app.
  - right. exists (tr1 ++ before), line.
    split; [by rewrite Htr2, Htr1, <- !app_assoc | by apply Forall_app].
Qed.

Lemma login_ends (client : TelegramClient) :
  stays_or_leaves
    (me ← await GetMe (get_me client);
     print ("Logged in as: " +:+ Py.str_int (User.id me) +:+ " @" +:+
            Py.str (User.username me));;
     await Disconnect (disconnect client)).
Proof.
  intros s. rewrite run_bind.
  destruct (get_me client) as [me|e] eqn:Hme.
  - right. exists [Await GetMe]. eexists. split; [|by repeat constructor].
    rewrite (run_await_ok _ _ me _ eq_refl), run_bind.
    unfold print, emit at 1. cbn [stdin trace].
    destruct (disconnect client) as [[]|e] eqn:Hdis.
    + rewrite (run_await_ok _ _ tt _ eq_refl). cbn [snd trace].
      by rewrite <- !app_assoc.
    + rewrite (run_await_fails _ _ e _ eq_refl). cbn [snd trace].
      by rewrite <- !app_assoc.
  - left. rewrite (run_await_fails _ _ e _ eq_refl).
    exists [Await GetMe]. split; [done | by repeat constructor].
Qed.

Lemma login_stays_or_leaves (w : world) (phone : option string) :
  exists k : TelegramClient -> M unit,
    main w (Login phone) = (get_client w ≫= k) /\ forall c, stays_or_leaves (k c).
Proof.
  pose proof (grows_by_emit connected) as Hemit.
  pose proof (fun A B => @steps_bind (grows_by connected) _ A B) as Hbind.
  pose proof (fun A => @steps_await (grows_by connected) _ connected Hemit A) as Hawait.
  pose proof (@steps_emit (grows_by connected) connected Hemit) as Hprint.
  pose proof (fun A => @steps_raise (grows_by connected) _ A) as Hraise.
  pose proof (fun A => @steps_ret (grows_by connected) _ A) as Hret.
  eexists. split; [reflexivity|]. intros client.
  apply stays_or_leaves_bind; [by apply Hawait|]. intros _.
  apply stays_or_leaves_bind; [by apply Hawait|]. intros authorized.
  apply stays_or_leaves_bind; [|intros _; apply login_ends].
  destruct (negb authorized); [|apply Hret].
  destruct phone as [number|]; [|apply Hraise].
  destruct (negb (Py.truthy (Some number))); [apply Hraise|].
  apply Hbind; [by apply Hawait|]. intros _.
  apply Hbind.
  { apply (steps_fmap (grows_by connected)).
    apply Hbind; [by apply Hprint|]. intros _. apply grows_by_read_line. }
  intros code.
  apply (steps_try_await (grows_by connected) connected Hemit); [done|]. intros e.
  destruct (Py.contains _ _); [|apply Hraise].
  apply Hbind; [|intros pwd; by apply Hawait].
  apply Hbind; [by apply Hprint|]. intros _. apply grows_by_read_line.
Qed.

End Disconnecting.

(** X16: [login] disconnects at most once and only as its last act,
    right after it printed the identity.  Whatever the service answers
    and whatever is typed, a run that ends before that line is printed
    (a usage error, a failed call, no input) leaves the connection as it
    is: no disconnection is awaited. *)
Theorem login_disconnects_last `{DateTime} (w : world) (phone : option string)
    (lines : list string) :
  Forall connected (trace (snd (run w (Login phone) lines))) \/
  exists before line,
    trace (snd (run w (Login phone) lines)) = before ++ [Print line; Await Disconnect] /\
    Forall connected before.
Proof.
  destruct (login_stays_or_leaves w phone) as (k & Hmain & Hk).
  unfold run. rewrite Hmain, run_bind.
  destruct (get_client_shape w (State lines [])) as [[e ->] | (n & hash & r & ->)];
    [left; by constructor|].
  cbn [stdin trace]. destruct r as [client|e]; [|left; by repeat constructor].
  destruct (Hk client (State lines ([] ++ [New SESSION_PATH n hash])))
    as [(tr & -> & Hall) | (before & line & -> & Hall)].
  - left. apply Forall_app. split; [by repeat constructor | done].
  - right. exists (New SESSION_PATH n hash :: before), line.
    split; [done | by constructor].
Qed.

(** ** More runs *)

(** What [get_client] returns and adds to the trace does not depend on
    the state it starts in. *)
Lemma get_client_uniform `{DateTime} (w : world) :
  exists r tr, forall s, get_client w s = (r, State (stdin s) (trace s ++ tr)).
Proof.
  unfold get_client.
  destruct (environ w !! "TG_API_ID") as [id|];
    [|eexists _, []; intros [i t]; by rewrite app_nil_r].
  destruct (environ w !! "TG_API_HASH") as [hash|];
    [|eexists _, []; intros [i t]; by rewrite app_nil_r].
  destruct (negb _ || negb _);
    [eexists _, []; intros [i t]; by rewrite app_nil_r|].
  destruct (Py.int id) as [n|];
    [|eexists _, []; intros [i t]; by rewrite app_nil_r].
  destruct (telethon w SESSION_PATH n hash) as [client|e].
  - exists (Return client), [New SESSION_PATH n hash]. intros s.
    by rewrite run_bind.
  - exists (Raise (ClientError e)), [New SESSION_PATH n hash]. intros s.
    by rewrite run_bind.
Qed.

(** X17: [login] sees the typed code only through [strip]: two lines
    that are equal once the whitespace around them is dropped give the
    same outcome and the same trace, whatever the service answers. *)
Theorem login_ignores_space_around_code `{DateTime} (w : world) (phone : option string)
    (typed typed' : string) (rest : list string) :
  Py.strip typed = Py.strip typed' ->
  fst (run w (Login phone) (typed :: rest)) = fst (run w (Login phone) (typed' :: rest)) /\
  trace (snd (run w (Login phone) (typed :: rest))) =
    trace (snd (run w (Login phone) (typed' :: rest))).
Proof.
  intros Hstrip. unfold run, main, cmd_login. rewrite !run_bind.
  destruct (get_client_uniform w) as (r & tr & Hget). rewrite !Hget.
  destruct r as [client|e]; [|done].
  unfold await, try_await, input, read_line, print, emit, raise.
  unfold mbind, M_bind, fmap, M_fmap, mret, M_ret.
  cbn [stdin trace fst snd].
  destruct (connect client) as [[]|e1]; [|done].
  destruct (is_user_authorized client) as [[|]|e2]; [| |done]; cbn [negb stdin trace fst snd].
  - destruct (get_me client) as [me|e3]; [|done].
    by destruct (disconnect client) as [[]|e4].
  - destruct phone as [number|]; [|done].
    destruct (negb (Py.truthy (Some number))); [done|].
    destruct (send_code_request client number) as [[]|e3]; [|done].
    cbn -[Py.strip Py.contains Py.lower String.append]. rewrite Hstrip. done.
Qed.

Lemma login_ignores_space_around_code_witness :
  fst (run (Fake.world_of Fake.fresh) (Login (Some "+15551234567")) [" 12345 "]) =
    fst (run (Fake.world_of Fake.fresh) (Login (Some "+15551234567")) ["12345"]) /\
  trace (snd (run (Fake.world_of Fake.fresh) (Login (Some "+15551234567")) [" 12345 "])) =
    trace (snd (run (Fake.world_of Fake.fresh) (Login (Some "+15551234567")) ["12345"])).
Proof.
  exact (login_ignores_space_around_code (Fake.world_of Fake.fresh)
           (Some "+15551234567") " 12345 " "12345" [] eq_refl).
Defined.

(** X18: when the chat given to [tail] cannot be resolved, no message is
    fetched and nothing is printed; the session is left and the exception
    of the lookup ends the command. *)
Theorem tail_unknown_chat `{DateTime} (w : world) (lines : list string)
    (chat : string) (limit n : Z) (hash : string) (client : TelegramClient)
    (e : client_error) :
  builds w n hash client ->
  aenter client = Ok tt ->
  aexit client = Ok tt ->
  get_entity client chat = Fails e ->
  run w (Tail chat limit) lines =
    (Raise (ClientError e),
     State lines [New SESSION_PATH n hash; Await Enter; Await (GetEntity chat); Await Exit]).
Proof.
  intros Hb Henter Hexit Hent. unfold run, main, cmd_tail.
  rewrite run_bind, (run_get_client w n hash client _ Hb).
  erewrite (run_async_with client _ _ (Raise (ClientError e))); [|done|].
  2:{ by rewrite run_bind, (run_await_fails _ _ e _ Hent). }
  by rewrite Hexit.
Qed.

Lemma tail_unknown_chat_witness :
  run (Fake.world_of Fake.lonely) (Tail "@nobody" 50) [] =
    (Raise (ClientError (ClientErr true "Cannot find any entity corresponding to @nobody")),
     State [] [New SESSION_PATH 12345 "0123abcd"; Await Enter;
               Await (GetEntity "@nobody"); Await Exit]).
Proof.
  exact (tail_unknown_chat (Fake.world_of Fake.lonely) [] "@nobody" 50 12345 "0123abcd"
           Fake.lonely
           (ClientErr true "Cannot find any entity corresponding to @nobody")
           (fake_builds _) eq_refl eq_refl eq_refl).
Defined.

Lemma lookups_of_turns `{DateTime} (ms : list Message.t) :
  length (List.filter is_lookup (ms ≫= search_turn)) = length ms.
Proof.
  induction ms as [|m ms IH]; [done|].
  rewrite bind_cons, List.filter_app, length_app, IH. reflexivity.
Qed.

(** X19: [search] looks the chat of every result up once, right before
    it prints the line of that result: with k results the trace holds k
    lookups, each followed by its line, between the start of the
    iteration and the exit. *)
Theorem search_one_lookup_per_result `{DateTime} (w : world) (lines : list string)
    (query : string) (limit n : Z) (hash : string) (client : TelegramClient) :
  builds w n hash client ->
  aenter client = Ok tt ->
  (forall m e, m ∈ fst (iter_messages client query limit) ->
     Message.get_chat m = Fails e -> derives_Exception e = true) ->
  trace (snd (run w (Search query limit) lines)) =
    [New SESSION_PATH n hash; Await Enter; Await (IterMessages query limit)]
    ++ (fst (iter_messages client query limit) ≫=
          fun m => [Await GetChat; Print (search_line (search_label m) m)])
    ++ [Await Exit] /\
  length (List.filter is_lookup (trace (snd (run w (Search query limit) lines))))
    = length (fst (iter_messages client query limit)).
Proof.
  intros Hb Henter Hcaught.
  rewrite (run_search w lines query limit n hash client) by done.
  cbn [snd trace]. split; [done|].
  rewrite !List.filter_app, !length_app, lookups_of_turns. simpl. lia.
Qed.

Lemma search_one_lookup_per_result_witness :
  trace (snd (run (Fake.world_of Fake.flooded) (Search "h" 20) [])) =
    [New SESSION_PATH 12345 "0123abcd"; Await Enter; Await (IterMessages "h" 20);
     Await GetChat; Print "[2023-11-14T22:13:20+00:00] in Team: hello";
     Await GetChat; Print "[2023-11-14T22:16:20+00:00] in None: hi";
     Await Exit] /\
  length (List.filter is_lookup
            (trace (snd (run (Fake.world_of Fake.flooded) (Search "h" 20) [])))) = 2%nat.
Proof.
  refine (search_one_lookup_per_result (Fake.world_of Fake.flooded) [] "h" 20 12345
            "0123abcd" Fake.flooded (fake_builds _) eq_refl _).
  intros m e' Hin Hchat. simpl in Hin.
  apply elem_of_cons in Hin as [-> | Hin]; [discriminate Hchat|].
  apply elem_of_cons in Hin as [-> | Hin]; [discriminate Hchat|].
  by apply elem_of_nil in Hin.
Defined.
